(** * SHTC1 driver: CRC-8 validation, fixed-point conversion and bus protocol

    A shallow embedding of [shtc1.c] (Sensirion SHTC1 temperature and
    humidity sensor driver over the ASF I2C master interface) together with
    the properties its specification states about it.

    Conventions of the embedding:
    - a [uint8_t] is a [Z] in [0, 256); an assignment to a [uint8_t] object
      is written with [to_uint8], its wrap-around;
    - an [int] is a [Z] wrapped to [int_bits] bits two's complement by
      [to_int]; [int_bits] is a parameter of the platform;
    - a [uint8_t *] pointing into an array is the list of the bytes from the
      pointed cell on, so [data + 3] is [drop 3 data];
    - an [int *] is a location of a store [gmap loc Z], so that two output
      pointers may alias;
    - the I2C transport and the delay primitive belong to the platform: they
      are an arbitrary deterministic function of the history of bus events,
      and every call is recorded in that history. *)

From Stdlib Require Import ZArith List Bool Lia.
From stdpp Require Import base list gmap.

Local Open Scope Z_scope.

(** ** Constants of [shtc1.c] *)

Definition CMD_MEASURE_LPM_CS : list Z := [0x64; 0x58].
Definition CMD_MEASURE_LPM : list Z := [0x60; 0x9c].
Definition CMD_MEASURE_HPM_CS : list Z := [0x7c; 0xa2].
Definition CMD_MEASURE_HPM : list Z := [0x78; 0x66].
Definition CMD_SOFT_RESET : list Z := [0x80; 0x5d].
Definition CMD_READ_ID_REG : list Z := [0xef; 0xc8].
Definition COMMAND_SIZE : Z := Z.of_nat (length CMD_MEASURE_LPM).
Definition SHTC1_ADDRESS : Z := 0x70.

Definition ID_REG_CONTENT : Z := 0x07.
Definition ID_REG_MASK : Z := 0x1f.
Definition CRC_POLYNOMIAL : Z := 0x31.
Definition CRC_INIT : Z := 0xff.

(** ** Machine integers *)

(** Conversion to [uint8_t]. *)
Definition to_uint8 (z : Z) : Z := z mod 256.

(** A value that a [uint8_t] object can hold. *)
Definition is_uint8 (z : Z) : Prop := 0 <= z < 256.

(** [data[i]] for a pointer [data] into a byte array. *)
Definition byte_at (data : list Z) (i : nat) : Z := nth i data 0.

(** ** The checksum routine *)

(** The inner loop [for (bit = 8; bit > 0; --bit)] of [shtc1_check_crc]:
    [bit] counts the iterations that remain. *)
Fixpoint crc_bit_loop (bit : nat) (crc : Z) : Z :=
  match bit with
  | O => crc
  | S bit' =>
      crc_bit_loop bit'
        (if negb (Z.land crc 0x80 =? 0)
         then to_uint8 (Z.lxor (Z.shiftl crc 1) CRC_POLYNOMIAL)
         else to_uint8 (Z.shiftl crc 1))
  end.

(** The outer loop [for (current_byte = 0; current_byte < data_length;
    ++current_byte)]: [remaining] is [data_length - current_byte]. Both
    counters are [uint8_t]; [current_byte] stops at [data_length], at most
    255, and never wraps, so they are counted in [nat]. *)
Fixpoint crc_byte_loop (remaining : nat) (data : list Z) (current_byte : nat)
    (crc : Z) : Z :=
  match remaining with
  | O => crc
  | S remaining' =>
      crc_byte_loop remaining' data (S current_byte)
        (crc_bit_loop 8 (to_uint8 (Z.lxor crc (byte_at data current_byte))))
  end.

(** The register of [shtc1_check_crc] when the loops are left. *)
Definition shtc1_crc (data : list Z) (data_length : nat) : Z :=
  crc_byte_loop data_length data 0 CRC_INIT.

Definition shtc1_check_crc (data : list Z) (data_length : nat) (checksum : Z)
    : bool :=
  shtc1_crc data data_length =? checksum.

(** *** The checksum as the specification words it

    Bit-wise CRC-8, polynomial [0x31], initial register [0xFF], most
    significant bit first, neither reflection nor final XOR. *)

Definition spec_shift_step (reg : Z) : Z :=
  if Z.testbit reg 7
  then Z.land (Z.lxor (Z.shiftl reg 1) 0x31) 0xFF
  else Z.land (Z.shiftl reg 1) 0xFF.

Definition spec_byte_step (reg byte : Z) : Z :=
  Nat.iter 8 spec_shift_step (Z.land (Z.lxor reg byte) 0xFF).

Definition spec_compute_crc (data : list Z) : Z :=
  fold_left spec_byte_step data 0xFF.

Definition spec_verify (data : list Z) (expected : Z) : bool :=
  spec_compute_crc data =? expected.

(** Flipping bit [k] of a byte. *)
Definition flip_bit (k : Z) (b : Z) : Z := Z.lxor b (Z.shiftl 1 k).

(** Corrupting a payload: bit [k] of the byte at [pos] is flipped. *)
Definition corrupt (pos : nat) (k : Z) (payload : list Z) : list Z :=
  alter (flip_bit k) pos payload.

(** ** Platform, transport and machine state *)

(** [enum status_code] of the ASF: a C integer, zero when tested by
    [if (ret)] means success. *)
Abbreviation status_code := Z (only parsing).

(** An [int *]: a location of the store. *)
Abbreviation loc := positive (only parsing).

(** [struct i2c_master_packet] without its [data] pointer, which is passed
    next to it: the bytes to send for a write, and for a read the buffer
    that the transport fills. *)
Record i2c_master_packet : Type := mk_packet {
  address : Z;
  data_length : Z;
  ten_bit_address : bool;
  high_speed : bool
}.

(** What happened on the bus, with what the transport answered. *)
Inductive bus_event : Type :=
| EvWriteNoStop (packet : i2c_master_packet) (bytes : list Z) (ret : Z)
| EvWrite (packet : i2c_master_packet) (bytes : list Z) (ret : Z)
| EvRead (packet : i2c_master_packet) (ret : Z) (received : list Z)
| EvDelay (ms : Z).

(** The state the driver runs in: the history of the bus and the store
    holding the caller's [int] objects. *)
Record machine : Type := mk_machine {
  bus_log : list bus_event;
  store : gmap positive Z
}.

(** Computations of the driver: state passing over [machine]. *)
Definition M (A : Type) : Type := machine -> A * machine.

Definition ret {A : Type} (a : A) : M A := fun m => (a, m).

Definition bind {A B : Type} (c : M A) (k : A -> M B) : M B :=
  fun m => let '(a, m') := c m in k a m'.

Notation "'do' x <- c ; k" := (bind c (fun x => k))
  (at level 10, x name, c at level 100, k at level 200).
Notation "'do' ' pat <- c ; k" :=
  (bind c (fun x => match x with pat => k end))
  (at level 10, pat pattern, c at level 100, k at level 200).
Notation "'run' c ; k" := (bind c (fun _ => k))
  (at level 10, c at level 100, k at level 200).

Definition log_event (e : bus_event) : M unit :=
  fun m => (tt, mk_machine (bus_log m ++ [e]) (store m)).

(** [*p = v] and [*p] for an [int *p]. *)
Definition store_int (p : loc) (v : Z) : M unit :=
  fun m => (tt, mk_machine (bus_log m) (<[p := v]> (store m))).

Definition load_int (p : loc) : M Z :=
  fun m => (store m !!! p, m).

(** The three packets of [shtc1.c]: the 2-byte command of every write, the
    6-byte read of a measurement and the 3-byte read of the ID register. *)
Definition command_packet : i2c_master_packet :=
  mk_packet SHTC1_ADDRESS COMMAND_SIZE false false.

Definition read_packet : i2c_master_packet :=
  mk_packet SHTC1_ADDRESS 6 false false.

Definition id_packet : i2c_master_packet :=
  mk_packet SHTC1_ADDRESS 3 false false.

(** The bus operations that [shtc1.c] issues: a write without stop of one
    of the five measurement and identification commands, a write with stop
    of the reset command, a read of 6 or 3 bytes, a delay of 50 ms; every
    packet goes to [SHTC1_ADDRESS] with 7-bit addressing at normal speed,
    and a write announces the 2 bytes it carries. *)
Definition driver_packet (p : i2c_master_packet) (len : Z) : bool :=
  (address p =? SHTC1_ADDRESS) && (data_length p =? len)
  && negb (ten_bit_address p) && negb (high_speed p).

Definition driver_event (e : bus_event) : bool :=
  match e with
  | EvWriteNoStop p bytes _ =>
      driver_packet p (Z.of_nat (length bytes))
      && (bool_decide (bytes = CMD_MEASURE_LPM_CS)
          || bool_decide (bytes = CMD_MEASURE_LPM)
          || bool_decide (bytes = CMD_MEASURE_HPM_CS)
          || bool_decide (bytes = CMD_MEASURE_HPM)
          || bool_decide (bytes = CMD_READ_ID_REG))
  | EvWrite p bytes _ =>
      driver_packet p (Z.of_nat (length bytes))
      && bool_decide (bytes = CMD_SOFT_RESET)
  | EvRead p _ _ => driver_packet p 6 || driver_packet p 3
  | EvDelay ms => ms =? 50
  end.

(** *** Scripted transports

    A transport that answers every write with the status [w], one that
    answers every read with the status [r] and the bytes [received], and a
    machine on which nothing has happened yet: what is needed to run the
    driver on a concrete frame. *)
Definition bus_writes (w : Z)
    : list bus_event -> bool -> i2c_master_packet -> list Z -> status_code :=
  fun _ _ _ _ => w.

Definition bus_reads (r : Z) (received : list Z)
    : list bus_event -> i2c_master_packet -> status_code * list Z :=
  fun _ _ => (r, received).

Definition idle_machine : machine := mk_machine [] ∅.

(** A valid measurement frame: raw codes [0x6850] and [0x8000] with their
    checksums. *)
Definition sample_frame : list Z := [0x68; 0x50; 0x9d; 0x80; 0x00; 0xa2].

(** The same frame with bit 0 of the first humidity byte flipped. *)
Definition damaged_frame : list Z := [0x68; 0x50; 0x9d; 0x81; 0x00; 0xa2].

(** A valid identification frame with the signature [0x07]. *)
Definition sample_id_frame : list Z := [0x00; 0x07; 0x16].

(** A valid frame with both raw codes zero. *)
Definition cold_frame : list Z := [0x00; 0x00; 0x81; 0x00; 0x00; 0x81].

(** A transport whose first bus operation is a read answered with [first]
    and whose later reads are answered with [later]. *)
Definition bus_reads_in_turn (first later : list Z)
    : list bus_event -> i2c_master_packet -> status_code * list Z :=
  fun log _ => match log with [] => (0, first) | _ :: _ => (0, later) end.

Section Driver.

(** The width of [int] on the target. *)
Variable int_bits : Z.
Hypothesis int_bits_ge_32 : 32 <= int_bits.

(** The two enumerators of [enum status_code] that [shtc1.c] names; their
    values are those of the ASF header [status_codes.h]. *)
Variable STATUS_OK : status_code.
Variable STATUS_ERR_BAD_DATA : status_code.
Hypothesis STATUS_ERR_BAD_DATA_not_OK : STATUS_ERR_BAD_DATA <> STATUS_OK.

(** The transport: what a write (with or without a stop condition) and a
    read answer, given everything that happened on the bus before. A read
    answers its status and the bytes it left in the buffer. *)
Variable i2c_write_reply :
  list bus_event -> bool -> i2c_master_packet -> list Z -> status_code.
Variable i2c_read_reply :
  list bus_event -> i2c_master_packet -> status_code * list Z.

(** Conversion to [int]: two's complement on [int_bits] bits. *)
Definition to_int (z : Z) : Z :=
  (z + 2 ^ (int_bits - 1)) mod 2 ^ int_bits - 2 ^ (int_bits - 1).

(** A value that an [int] object can hold. *)
Definition is_int (z : Z) : Prop :=
  - 2 ^ (int_bits - 1) <= z < 2 ^ (int_bits - 1).

Definition i2c_master_write_packet_wait_no_stop
    (packet : i2c_master_packet) (bytes : list Z) : M status_code :=
  fun m =>
    let r := i2c_write_reply (bus_log m) false packet bytes in
    (r, snd (log_event (EvWriteNoStop packet bytes r) m)).

Definition i2c_master_write_packet_wait
    (packet : i2c_master_packet) (bytes : list Z) : M status_code :=
  fun m =>
    let r := i2c_write_reply (bus_log m) true packet bytes in
    (r, snd (log_event (EvWrite packet bytes r) m)).

Definition i2c_master_read_packet_wait (packet : i2c_master_packet)
    : M (status_code * list Z) :=
  fun m =>
    let r := i2c_read_reply (bus_log m) packet in
    (r, snd (log_event (EvRead packet (fst r) (snd r)) m)).

Definition delay_ms (ms : Z) : M unit := log_event (EvDelay ms).

(** ** The operations of the driver *)

Definition shtc1_read_async_result (temp rh : loc) : M status_code :=
  let packet := mk_packet SHTC1_ADDRESS 6 false false in
  do '(r, data) <- i2c_master_read_packet_wait packet;
  if negb (r =? 0) then ret r
  else if negb (shtc1_check_crc data 2 (byte_at data 2))
          || negb (shtc1_check_crc (drop 3 data) 2 (byte_at data 5))
  then ret STATUS_ERR_BAD_DATA
  else
    run store_int temp
          (to_int (Z.lor (Z.land (byte_at data 1) 0xff)
                         (to_int (Z.shiftl (byte_at data 0) 8))));
    run store_int rh
          (to_int (Z.lor (Z.land (byte_at data 4) 0xff)
                         (to_int (Z.shiftl (byte_at data 3) 8))));
    do t <- load_int temp;
    run store_int temp
          (to_int (to_int (Z.shiftr (to_int (21875 * t)) 13) - 45000));
    do h <- load_int rh;
    run store_int rh (to_int (Z.shiftr (to_int (12500 * h)) 13));
    ret STATUS_OK.

Definition shtc1_read_sync (command : list Z) (temp rh : loc)
    : M status_code :=
  let packet := mk_packet SHTC1_ADDRESS COMMAND_SIZE false false in
  do r <- i2c_master_write_packet_wait_no_stop packet command;
  run delay_ms 50;
  if negb (r =? 0) then ret r
  else shtc1_read_async_result temp rh.

Definition shtc1_read_lpm_sync (temp rh : loc) : M status_code :=
  shtc1_read_sync CMD_MEASURE_LPM_CS temp rh.

Definition shtc1_read_hpm_sync (temp rh : loc) : M status_code :=
  shtc1_read_sync CMD_MEASURE_HPM_CS temp rh.

Definition shtc1_read_lpm_async : M status_code :=
  let packet := mk_packet SHTC1_ADDRESS COMMAND_SIZE false false in
  i2c_master_write_packet_wait_no_stop packet CMD_MEASURE_LPM.

Definition shtc1_read_hpm_async : M status_code :=
  let packet := mk_packet SHTC1_ADDRESS COMMAND_SIZE false false in
  i2c_master_write_packet_wait_no_stop packet CMD_MEASURE_HPM.

Definition shtc1_reset : M status_code :=
  let packet := mk_packet SHTC1_ADDRESS COMMAND_SIZE false false in
  i2c_master_write_packet_wait packet CMD_SOFT_RESET.

Definition shtc1_probe : M bool :=
  let packet := mk_packet SHTC1_ADDRESS COMMAND_SIZE false false in
  run i2c_master_write_packet_wait_no_stop packet CMD_READ_ID_REG;
  let packet := mk_packet (address packet) 3
                  (ten_bit_address packet) (high_speed packet) in
  run delay_ms 50;
  do '(r, data) <- i2c_master_read_packet_wait packet;
  if negb (r =? 0) then ret false
  else if negb (shtc1_check_crc data 2 (byte_at data 2)) then ret false
  else ret (Z.land (byte_at data 1) ID_REG_MASK =? ID_REG_CONTENT).

(** The raw code of two consecutive bytes, first byte high. *)
Definition raw_code (msb lsb : Z) : Z := msb * 256 + lsb.

(** ** Checksum: auxiliary facts *)

Lemma to_uint8_land (z : Z) : to_uint8 z = Z.land z 0xFF.
Proof.
  unfold to_uint8. change 0xFF with (Z.ones 8).
  rewrite Z.land_ones by lia. reflexivity.
Qed.

Lemma to_uint8_range (z : Z) : is_uint8 (to_uint8 z).
Proof. unfold is_uint8, to_uint8. apply Z.mod_pos_bound. lia. Qed.

Lemma to_uint8_small (z : Z) : is_uint8 z -> to_uint8 z = z.
Proof. unfold is_uint8, to_uint8. intros H. now apply Z.mod_small. Qed.

Lemma top_bit_test (crc : Z) : negb (Z.land crc 0x80 =? 0) = Z.testbit crc 7.
Proof.
  destruct (Z.testbit crc 7) eqn:Hb.
  - apply negb_true_iff, Z.eqb_neq. intros H0.
    assert (Ht : Z.testbit (Z.land crc 0x80) 7 = true).
    { rewrite Z.land_spec, Hb. reflexivity. }
    rewrite H0 in Ht. discriminate.
  - apply negb_false_iff, Z.eqb_eq, Z.bits_inj'. intros n Hn.
    rewrite Z.land_spec, Z.bits_0.
    destruct (Z.eq_dec n 7) as [->|Hne].
    + rewrite Hb. reflexivity.
    + change 0x80 with (2 ^ 7). rewrite Z.pow2_bits_eqb by lia.
      replace (7 =? n) with false by (symmetry; apply Z.eqb_neq; lia).
      apply andb_false_r.
Qed.

Lemma crc_bit_step_spec (crc : Z) :
  (if negb (Z.land crc 0x80 =? 0)
   then to_uint8 (Z.lxor (Z.shiftl crc 1) CRC_POLYNOMIAL)
   else to_uint8 (Z.shiftl crc 1)) = spec_shift_step crc.
Proof.
  unfold spec_shift_step. rewrite top_bit_test, !to_uint8_land. reflexivity.
Qed.

Lemma crc_bit_loop_iter (bit : nat) (crc : Z) :
  crc_bit_loop bit crc = Nat.iter bit spec_shift_step crc.
Proof.
  revert crc. induction bit as [|bit IH]; intros crc; [reflexivity|].
  cbn [crc_bit_loop]. rewrite crc_bit_step_spec, IH.
  symmetry. apply Nat.iter_succ_r.
Qed.

Lemma drop_cons_nth (data : list Z) (i : nat) :
  (i < length data)%nat -> drop i data = byte_at data i :: drop (S i) data.
Proof.
  revert i. induction data as [|b data IH]; intros i Hi; simpl in Hi; [lia|].
  destruct i as [|i]; [reflexivity|].
  cbn [drop byte_at nth]. apply IH. lia.
Qed.

Lemma crc_byte_loop_fold (remaining : nat) (data : list Z) :
  forall (current_byte : nat) (crc : Z),
    (current_byte + remaining <= length data)%nat ->
    crc_byte_loop remaining data current_byte crc =
    fold_left spec_byte_step (take remaining (drop current_byte data)) crc.
Proof.
  induction remaining as [|r IH]; intros i crc Hlen; [reflexivity|].
  cbn [crc_byte_loop]. rewrite IH by lia.
  rewrite (drop_cons_nth data i) by lia.
  cbn [take fold_left]. unfold spec_byte_step at 3.
  rewrite crc_bit_loop_iter, to_uint8_land. reflexivity.
Qed.

(** The shift step is linear over GF(2): it commutes with XOR. *)
Lemma spec_shift_step_lxor (a b : Z) :
  spec_shift_step (Z.lxor a b) =
  Z.lxor (spec_shift_step a) (spec_shift_step b).
Proof.
  unfold spec_shift_step. rewrite Z.lxor_spec.
  destruct (Z.testbit a 7), (Z.testbit b 7); cbn [xorb];
    apply Z.bits_inj'; intros n Hn;
    rewrite ?Z.land_spec, ?Z.lxor_spec, ?Z.land_spec, ?Z.lxor_spec,
      ?Z.shiftl_spec, ?Z.lxor_spec by lia;
    destruct (Z.testbit a (n - 1)), (Z.testbit b (n - 1)),
      (Z.testbit 49 n), (Z.testbit 255 n); reflexivity.
Qed.

Lemma iter_shift_step_lxor (n : nat) (a b : Z) :
  Nat.iter n spec_shift_step (Z.lxor a b) =
  Z.lxor (Nat.iter n spec_shift_step a) (Nat.iter n spec_shift_step b).
Proof.
  induction n as [|n IH]; [reflexivity|].
  rewrite !Nat.iter_succ, IH. apply spec_shift_step_lxor.
Qed.

Lemma lxor_interchange (a b c d : Z) :
  Z.lxor (Z.lxor a b) (Z.lxor c d) = Z.lxor (Z.lxor a c) (Z.lxor b d).
Proof.
  rewrite !Z.lxor_assoc. f_equal.
  rewrite <- !Z.lxor_assoc. f_equal. apply Z.lxor_comm.
Qed.

Lemma land_lxor_mask (a b m : Z) :
  Z.land (Z.lxor a b) m = Z.lxor (Z.land a m) (Z.land b m).
Proof.
  apply Z.bits_inj'. intros n Hn.
  rewrite ?Z.land_spec, ?Z.lxor_spec, ?Z.land_spec.
  destruct (Z.testbit a n), (Z.testbit b n), (Z.testbit m n); reflexivity.
Qed.

(** Processing one byte is linear in the pair (register, byte). *)
Lemma spec_byte_step_lxor (r1 r2 b1 b2 : Z) :
  spec_byte_step (Z.lxor r1 r2) (Z.lxor b1 b2) =
  Z.lxor (spec_byte_step r1 b1) (spec_byte_step r2 b2).
Proof.
  unfold spec_byte_step.
  rewrite lxor_interchange, land_lxor_mask. apply iter_shift_step_lxor.
Qed.

(** The syndrome of a single flipped bit, one or two bytes before the end
    of the payload, is never zero. *)
Lemma syndrome_last_byte (k : Z) :
  0 <= k < 8 -> spec_byte_step 0 (Z.shiftl 1 k) <> 0.
Proof.
  intros Hk.
  assert (Hc : k = 0 \/ k = 1 \/ k = 2 \/ k = 3 \/
               k = 4 \/ k = 5 \/ k = 6 \/ k = 7) by lia.
  repeat (destruct Hc as [-> | Hc]); try subst k; vm_compute; discriminate.
Qed.

Lemma syndrome_first_byte (k : Z) :
  0 <= k < 8 -> spec_byte_step (spec_byte_step 0 (Z.shiftl 1 k)) 0 <> 0.
Proof.
  intros Hk.
  assert (Hc : k = 0 \/ k = 1 \/ k = 2 \/ k = 3 \/
               k = 4 \/ k = 5 \/ k = 6 \/ k = 7) by lia.
  repeat (destruct Hc as [-> | Hc]); try subst k; vm_compute; discriminate.
Qed.

Lemma lxor_syndrome_neq (c d : Z) : d <> 0 -> Z.lxor c d <> c.
Proof.
  intros Hd Heq. apply Hd.
  assert (Hc : d = Z.lxor c (Z.lxor c d)).
  { rewrite <- Z.lxor_assoc, Z.lxor_nilpotent, Z.lxor_0_l. reflexivity. }
  rewrite Hc, Heq. apply Z.lxor_nilpotent.
Qed.

Lemma shtc1_crc_spec (data : list Z) (n : nat) :
  (n <= length data)%nat ->
  shtc1_crc data n = spec_compute_crc (take n data).
Proof.
  intros Hn. unfold shtc1_crc, spec_compute_crc.
  rewrite crc_byte_loop_fold by (simpl; lia). reflexivity.
Qed.

Lemma shtc1_crc_pair (b0 b1 : Z) :
  shtc1_crc [b0; b1] 2 = spec_byte_step (spec_byte_step 0xFF b0) b1.
Proof. rewrite shtc1_crc_spec by (simpl; lia). reflexivity. Qed.

(** ** Machine integers: auxiliary facts *)

Lemma int_bits_half : 2 ^ 31 <= 2 ^ (int_bits - 1).
Proof using int_bits_ge_32. apply Z.pow_le_mono_r; lia. Qed.

Lemma int32_is_int (z : Z) : - 2 ^ 31 <= z < 2 ^ 31 -> is_int z.
Proof using int_bits_ge_32.
  intros Hz. pose proof int_bits_half as Hh. unfold is_int. lia.
Qed.

Lemma to_int_small (z : Z) : is_int z -> to_int z = z.
Proof using int_bits_ge_32.
  unfold is_int, to_int. intros Hz.
  assert (Hp : 2 ^ int_bits = 2 * 2 ^ (int_bits - 1)).
  { rewrite <- Z.pow_succ_r by lia. f_equal. lia. }
  rewrite Z.mod_small by lia. lia.
Qed.

Lemma to_int_small32 (z : Z) : - 2 ^ 31 <= z < 2 ^ 31 -> to_int z = z.
Proof using int_bits_ge_32.
  intros Hz. apply to_int_small, int32_is_int, Hz.
Qed.

Lemma uint8_testbit_high (b n : Z) :
  is_uint8 b -> 8 <= n -> Z.testbit b n = false.
Proof.
  unfold is_uint8. intros Hb Hn.
  rewrite <- (Z.mod_small b (2 ^ 8)) by (change (2 ^ 8) with 256; lia).
  apply Z.mod_pow2_bits_high. lia.
Qed.

(** [(lsb & 0xff) | (msb << 8)] is the big-endian raw code. *)
Lemma lor_shiftl_raw_code (msb lsb : Z) :
  is_uint8 lsb ->
  Z.lor (Z.land lsb 0xff) (Z.shiftl msb 8) = raw_code msb lsb.
Proof.
  intros Hl. unfold raw_code.
  rewrite <- to_uint8_land, to_uint8_small by assumption.
  rewrite Z.shiftl_mul_pow2 by lia. change (2 ^ 8) with 256.
  rewrite <- Z.shiftl_mul_pow2 with (n := 8) by lia.
  rewrite Z.lor_comm, <- Z.lxor_lor, <- Z.add_nocarry_lxor; try reflexivity.
  all: apply Z.bits_inj'; intros n Hn; rewrite Z.land_spec, Z.bits_0;
    destruct (Z_lt_le_dec n 8) as [Hlt|Hge];
    [ rewrite Z.shiftl_spec_low by lia; reflexivity
    | rewrite (uint8_testbit_high lsb n) by assumption; apply andb_false_r ].
Qed.

Lemma raw_code_range (msb lsb : Z) :
  is_uint8 msb -> is_uint8 lsb -> 0 <= raw_code msb lsb < 65536.
Proof. unfold is_uint8, raw_code. lia. Qed.

(** ** The operations: auxiliary facts *)

(** Unfolding the state passing of a driver operation. *)
Ltac run_driver :=
  cbv [shtc1_read_async_result shtc1_read_sync shtc1_read_lpm_sync
       shtc1_read_hpm_sync shtc1_probe
       i2c_master_read_packet_wait i2c_master_write_packet_wait_no_stop
       delay_ms log_event store_int load_int bind ret];
  cbn [fst snd bus_log store address ten_bit_address high_speed].

Lemma read_async_result_read_failed (temp rh : loc) (m : machine)
    (r : Z) (data : list Z) :
  i2c_read_reply (bus_log m) read_packet = (r, data) ->
  r <> 0 ->
  shtc1_read_async_result temp rh m =
  (r, mk_machine (bus_log m ++ [EvRead read_packet r data]) (store m)).
Proof.
  intros Hrd Hr. run_driver. fold read_packet. rewrite Hrd.
  cbn [fst snd bus_log store].
  apply Z.eqb_neq in Hr. rewrite Hr. reflexivity.
Qed.

Lemma read_async_result_bad_crc (temp rh : loc) (m : machine)
    (data : list Z) :
  i2c_read_reply (bus_log m) read_packet = (0, data) ->
  shtc1_check_crc data 2 (byte_at data 2) = false \/
  shtc1_check_crc (drop 3 data) 2 (byte_at data 5) = false ->
  shtc1_read_async_result temp rh m =
  (STATUS_ERR_BAD_DATA,
   mk_machine (bus_log m ++ [EvRead read_packet 0 data]) (store m)).
Proof.
  intros Hrd Hcrc. run_driver. fold read_packet. rewrite Hrd.
  cbn [fst snd bus_log store].
  cbv beta iota. change (negb (0 =? 0)) with false. cbv iota.
  destruct Hcrc as [-> | ->]; [reflexivity|].
  rewrite orb_true_r. reflexivity.
Qed.

Lemma read_async_result_ok (temp rh : loc) (m : machine) (data : list Z) :
  i2c_read_reply (bus_log m) read_packet = (0, data) ->
  shtc1_check_crc data 2 (byte_at data 2) = true ->
  shtc1_check_crc (drop 3 data) 2 (byte_at data 5) = true ->
  let s1 := <[temp := to_int (Z.lor (Z.land (byte_at data 1) 0xff)
                            (to_int (Z.shiftl (byte_at data 0) 8)))]>
              (store m) in
  let s2 := <[rh := to_int (Z.lor (Z.land (byte_at data 4) 0xff)
                          (to_int (Z.shiftl (byte_at data 3) 8)))]> s1 in
  let s3 := <[temp := to_int (to_int (Z.shiftr
                        (to_int (21875 * (s2 !!! temp))) 13) - 45000)]> s2 in
  let s4 := <[rh := to_int (Z.shiftr
                        (to_int (12500 * (s3 !!! rh))) 13)]> s3 in
  shtc1_read_async_result temp rh m =
  (STATUS_OK, mk_machine (bus_log m ++ [EvRead read_packet 0 data]) s4).
Proof.
  intros Hrd H1 H2. run_driver. fold read_packet. rewrite Hrd.
  cbn [fst snd bus_log store].
  cbv beta iota. change (negb (0 =? 0)) with false. cbv iota.
  rewrite H1, H2. reflexivity.
Qed.

(** ** The checksum *)

(** C1. The checksum routine of the driver is the bit-wise CRC-8 with
    polynomial 0x31 and initial register 0xFF, most significant bit first,
    without reflection or final XOR: over the first [data_length] bytes of
    [data] its register ends at the value obtained by XORing each byte into
    the 8-bit register and then, 8 times, shifting the register left
    (truncated to 8 bits) with an XOR of the polynomial when the top bit was
    set. The verification returns true exactly when that final register
    value equals the expected checksum byte. *)
Theorem shtc1_check_crc_is_crc8 (data : list Z) (data_length : nat)
    (checksum : Z) :
  (data_length <= length data)%nat ->
  shtc1_crc data data_length = spec_compute_crc (take data_length data) /\
  is_uint8 (shtc1_crc data data_length) /\
  shtc1_check_crc data data_length checksum =
    spec_verify (take data_length data) checksum /\
  (shtc1_check_crc data data_length checksum = true <->
   spec_compute_crc (take data_length data) = checksum).
Proof.
  intros Hlen. pose proof (shtc1_crc_spec data data_length Hlen) as Hcrc.
  split; [exact Hcrc|]. split.
  - unfold shtc1_crc. clear Hcrc Hlen.
    generalize 0%nat. assert (Hinit : is_uint8 CRC_INIT) by (vm_compute; split; [discriminate|reflexivity]).
    revert Hinit. generalize CRC_INIT.
    induction data_length as [|n IH]; intros crc Hc i; [exact Hc|].
    cbn [crc_byte_loop]. apply IH.
    generalize (to_uint8_range (Z.lxor crc (byte_at data i))).
    generalize (to_uint8 (Z.lxor crc (byte_at data i))).
    generalize 8%nat. intros bits. induction bits as [|b IHb]; intros c Hr.
    + exact Hr.
    + cbn [crc_bit_loop]. apply IHb.
      destruct (negb (Z.land c 128 =? 0)); apply to_uint8_range.
  - unfold shtc1_check_crc, spec_verify. rewrite Hcrc.
    split; [reflexivity|]. apply Z.eqb_eq.
Qed.

(** C9. Single-error detection: for a 2-byte payload and its checksum as
    the routine computes it, flipping any one bit (bit 0 to 7) of either
    payload byte makes the validation of the corrupted payload against the
    original checksum fail. *)
Theorem crc_detects_single_bit_flip (b0 b1 : Z) (pos : nat) (k : Z) :
  (pos < 2)%nat ->
  0 <= k < 8 ->
  shtc1_check_crc (corrupt pos k [b0; b1]) 2 (shtc1_crc [b0; b1] 2) = false.
Proof.
  intros Hpos Hk. unfold shtc1_check_crc. apply Z.eqb_neq.
  rewrite (shtc1_crc_pair b0 b1).
  destruct pos as [|[|pos]]; [| |lia]; cbn [corrupt alter list_alter];
    rewrite shtc1_crc_pair; unfold flip_bit.
  - rewrite <- (Z.lxor_0_r 0xFF) at 1.
    rewrite spec_byte_step_lxor.
    rewrite <- (Z.lxor_0_r b1) at 1.
    rewrite spec_byte_step_lxor.
    apply lxor_syndrome_neq, syndrome_first_byte, Hk.
  - rewrite <- (Z.lxor_0_r (spec_byte_step 0xFF b0)) at 1.
    rewrite spec_byte_step_lxor.
    apply lxor_syndrome_neq, syndrome_last_byte, Hk.
Qed.

(** ** Decoding a measurement frame *)

Lemma check_crc_first_pair (b0 b1 b2 b3 b4 b5 : Z) :
  shtc1_check_crc [b0; b1; b2; b3; b4; b5] 2
    (byte_at [b0; b1; b2; b3; b4; b5] 2) = shtc1_check_crc [b0; b1] 2 b2.
Proof.
  unfold shtc1_check_crc. rewrite !shtc1_crc_spec by (cbn [length]; lia).
  cbn [firstn byte_at nth]. reflexivity.
Qed.

Lemma check_crc_second_pair (b0 b1 b2 b3 b4 b5 : Z) :
  shtc1_check_crc (drop 3 [b0; b1; b2; b3; b4; b5]) 2
    (byte_at [b0; b1; b2; b3; b4; b5] 5) = shtc1_check_crc [b3; b4] 2 b5.
Proof.
  unfold shtc1_check_crc. cbn [drop skipn].
  rewrite !shtc1_crc_spec by (cbn [length]; lia).
  cbn [firstn byte_at nth]. reflexivity.
Qed.

(** C2. When the 6-byte read succeeded, the CRC check runs on the
    temperature pair (bytes 0-1 against byte 2) and, independently, on the
    humidity pair (bytes 3-4 against byte 5); the bad-data error is
    returned, with the store untouched, exactly when at least one of the two
    checks fails, and the frame is accepted exactly when both pass. *)
Theorem read_async_result_crc_gate (temp rh : loc) (m : machine)
    (b0 b1 b2 b3 b4 b5 : Z) :
  i2c_read_reply (bus_log m) read_packet = (0, [b0; b1; b2; b3; b4; b5]) ->
  let out := shtc1_read_async_result temp rh m in
  ((fst out = STATUS_ERR_BAD_DATA /\ store (snd out) = store m) <->
   (shtc1_check_crc [b0; b1] 2 b2 = false \/
    shtc1_check_crc [b3; b4] 2 b5 = false)) /\
  (fst out = STATUS_OK <->
   (shtc1_check_crc [b0; b1] 2 b2 = true /\
    shtc1_check_crc [b3; b4] 2 b5 = true)).
Proof using STATUS_ERR_BAD_DATA_not_OK.
  intros Hrd out. subst out.
  rewrite <- (check_crc_first_pair b0 b1 b2 b3 b4 b5).
  rewrite <- (check_crc_second_pair b0 b1 b2 b3 b4 b5).
  destruct (shtc1_check_crc [b0; b1; b2; b3; b4; b5] 2
              (byte_at [b0; b1; b2; b3; b4; b5] 2)) eqn:H1;
    [destruct (shtc1_check_crc (drop 3 [b0; b1; b2; b3; b4; b5]) 2
                 (byte_at [b0; b1; b2; b3; b4; b5] 5)) eqn:H2|].
  - rewrite (read_async_result_ok temp rh m _ Hrd H1 H2). cbn [fst snd store].
    split; split.
    + intros [Hbad _]. symmetry in Hbad. contradiction.
    + intros [Hf | Hf]; discriminate Hf.
    + intros _. split; reflexivity.
    + intros _. reflexivity.
  - rewrite (read_async_result_bad_crc temp rh m _ Hrd (or_intror H2)).
    cbn [fst snd store]. split; split.
    + intros _. right. reflexivity.
    + intros _. split; reflexivity.
    + intros Hok. contradiction.
    + intros [_ Hf]. discriminate Hf.
  - rewrite (read_async_result_bad_crc temp rh m _ Hrd (or_introl H1)).
    cbn [fst snd store]. split; split.
    + intros _. left. reflexivity.
    + intros _. split; reflexivity.
    + intros Hok. contradiction.
    + intros [Hf _]. discriminate Hf.
Qed.

(** C10. Whenever the result-decoding operation returns on an error path,
    because the read failed or because one of the two CRC checks failed, the
    store, and with it both output locations, is exactly as before the call.
    The outputs are written on the success path only: if the store changed,
    the read had succeeded, both checks had passed and the status returned
    is the success status. *)
Theorem read_async_result_error_keeps_outputs (temp rh : loc) (m : machine) :
  let reply := i2c_read_reply (bus_log m) read_packet in
  let data := snd reply in
  let out := shtc1_read_async_result temp rh m in
  ((fst reply <> 0 \/
    shtc1_check_crc data 2 (byte_at data 2) = false \/
    shtc1_check_crc (drop 3 data) 2 (byte_at data 5) = false) ->
   store (snd out) = store m /\
   store (snd out) !!! temp = store m !!! temp /\
   store (snd out) !!! rh = store m !!! rh) /\
  (fst out <> STATUS_OK -> store (snd out) = store m) /\
  (store (snd out) <> store m ->
   fst out = STATUS_OK /\ fst reply = 0 /\
   shtc1_check_crc data 2 (byte_at data 2) = true /\
   shtc1_check_crc (drop 3 data) 2 (byte_at data 5) = true).
Proof.
  intros reply data out.
  assert (Hcases :
    (out = (fst reply,
            mk_machine (bus_log m ++ [EvRead read_packet (fst reply) data])
              (store m)) /\ fst reply <> 0) \/
    (out = (STATUS_ERR_BAD_DATA,
            mk_machine (bus_log m ++ [EvRead read_packet 0 data]) (store m)) /\
     fst reply = 0 /\
     (shtc1_check_crc data 2 (byte_at data 2) = false \/
      shtc1_check_crc (drop 3 data) 2 (byte_at data 5) = false)) \/
    (fst out = STATUS_OK /\ fst reply = 0 /\
     shtc1_check_crc data 2 (byte_at data 2) = true /\
     shtc1_check_crc (drop 3 data) 2 (byte_at data 5) = true)).
  { subst out data. destruct reply as [r data] eqn:Hrd. subst reply.
    cbn [fst snd].
    destruct (Z.eq_dec r 0) as [-> | Hr].
    - destruct (shtc1_check_crc data 2 (byte_at data 2)) eqn:H1;
        [destruct (shtc1_check_crc (drop 3 data) 2 (byte_at data 5)) eqn:H2|].
      + right. right.
        rewrite (read_async_result_ok temp rh m data Hrd H1 H2).
        repeat split; reflexivity.
      + right. left.
        rewrite (read_async_result_bad_crc temp rh m data Hrd (or_intror H2)).
        repeat split. right. reflexivity.
      + right. left.
        rewrite (read_async_result_bad_crc temp rh m data Hrd (or_introl H1)).
        repeat split. left. reflexivity.
    - left. rewrite (read_async_result_read_failed temp rh m r data Hrd Hr).
      split; [reflexivity | exact Hr]. }
  destruct Hcases as [[Hout Hr] | [[Hout [Hr Hcrc]] | [Hst [Hr [H1 H2]]]]].
  - rewrite Hout. cbn [fst snd store]. split; [|split].
    + intros _. repeat split; reflexivity.
    + intros _. reflexivity.
    + intros Hne. congruence.
  - rewrite Hout. cbn [fst snd store]. split; [|split].
    + intros _. repeat split; reflexivity.
    + intros _. reflexivity.
    + intros Hne. congruence.
  - split; [|split].
    + intros [Hf | [Hf | Hf]]; [contradiction | congruence | congruence].
    + intros Hne. contradiction.
    + intros _. repeat split; assumption.
Qed.

(** ** Fixed-point conversion *)

(** The raw code as [int] arithmetic assembles it. *)
Lemma raw_code_int (msb lsb : Z) :
  is_uint8 msb -> is_uint8 lsb ->
  to_int (Z.lor (Z.land lsb 0xff) (to_int (Z.shiftl msb 8))) =
  raw_code msb lsb.
Proof using int_bits_ge_32.
  intros Hm Hl.
  assert (Hs : Z.shiftl msb 8 = msb * 256).
  { rewrite Z.shiftl_mul_pow2 by lia. reflexivity. }
  rewrite (to_int_small32 (Z.shiftl msb 8))
    by (rewrite Hs; unfold is_uint8 in Hm; lia).
  rewrite lor_shiftl_raw_code by assumption.
  pose proof (raw_code_range msb lsb Hm Hl).
  apply to_int_small32. lia.
Qed.

Lemma scaled_product_range (c S : Z) :
  0 <= c <= 21875 -> 0 <= S < 65536 ->
  0 <= c * S < 2 ^ 31 /\ 0 <= Z.shiftr (c * S) 13 < 2 ^ 18.
Proof.
  intros Hc HS.
  assert (Hp : 0 <= c * S <= 21875 * 65535) by nia.
  split; [lia|].
  rewrite Z.shiftr_div_pow2 by lia. change (2 ^ 13) with 8192.
  split; [apply Z.div_pos; lia|].
  apply Z.div_lt_upper_bound; lia.
Qed.

Lemma temperature_int (S : Z) :
  0 <= S < 65536 ->
  to_int (to_int (Z.shiftr (to_int (21875 * S)) 13) - 45000) =
  Z.shiftr (21875 * S) 13 - 45000.
Proof using int_bits_ge_32.
  intros HS.
  destruct (scaled_product_range 21875 S ltac:(lia) HS) as [Hp Hq].
  rewrite (to_int_small32 (21875 * S)) by lia.
  rewrite (to_int_small32 (Z.shiftr (21875 * S) 13)) by lia.
  apply to_int_small32. lia.
Qed.

Lemma humidity_int (S : Z) :
  0 <= S < 65536 ->
  to_int (Z.shiftr (to_int (12500 * S)) 13) = Z.shiftr (12500 * S) 13.
Proof using int_bits_ge_32.
  intros HS.
  destruct (scaled_product_range 12500 S ltac:(lia) HS) as [Hp Hq].
  rewrite (to_int_small32 (12500 * S)) by lia.
  apply to_int_small32. lia.
Qed.

(** C3. For a frame that is read and accepted, with the two outputs at
    distinct locations, the temperature output is
    [((21875 * S) >> 13) - 45000], where [S] is the 16-bit raw code of the
    first two bytes, first byte high. The product [21875 * S] is
    non-negative and fits a 32-bit signed integer, hence the [int] of any
    target whose [int] has at least 32 bits: nothing overflows before the
    shift. *)
Theorem temperature_conversion (temp rh : loc) (m : machine)
    (b0 b1 b2 b3 b4 b5 : Z) :
  temp <> rh ->
  is_uint8 b0 -> is_uint8 b1 ->
  i2c_read_reply (bus_log m) read_packet = (0, [b0; b1; b2; b3; b4; b5]) ->
  shtc1_check_crc [b0; b1] 2 b2 = true ->
  shtc1_check_crc [b3; b4] 2 b5 = true ->
  let S := raw_code b0 b1 in
  let out := shtc1_read_async_result temp rh m in
  0 <= S < 65536 /\
  fst out = STATUS_OK /\
  store (snd out) !!! temp = Z.shiftr (21875 * S) 13 - 45000 /\
  0 <= 21875 * S < 2 ^ 31 /\
  is_int (21875 * S) /\
  to_int (21875 * S) = 21875 * S.
Proof using int_bits_ge_32.
  intros Hne H0 H1 Hrd Hc1 Hc2 S out. subst out.
  rewrite <- (check_crc_first_pair b0 b1 b2 b3 b4 b5) in Hc1.
  rewrite <- (check_crc_second_pair b0 b1 b2 b3 b4 b5) in Hc2.
  rewrite (read_async_result_ok temp rh m _ Hrd Hc1 Hc2).
  cbn [fst snd store byte_at nth].
  pose proof (raw_code_range b0 b1 H0 H1) as HS. fold S in HS.
  destruct (scaled_product_range 21875 S ltac:(lia) HS) as [Hp _].
  split; [exact HS|]. split; [reflexivity|]. split.
  - rewrite lookup_total_insert_ne by congruence.
    rewrite lookup_total_insert_eq.
    rewrite lookup_total_insert_ne by congruence.
    rewrite lookup_total_insert_eq.
    rewrite raw_code_int by assumption. apply temperature_int, HS.
  - split; [exact Hp|]. split.
    + apply int32_is_int. lia.
    + apply to_int_small32. lia.
Qed.

(** C4. For a frame that is read and accepted, with the two outputs at
    distinct locations, the humidity output is [(12500 * S) >> 13], where
    [S] is the 16-bit raw code of bytes 3 and 4, first byte high; it is
    never negative. *)
Theorem humidity_conversion (temp rh : loc) (m : machine)
    (b0 b1 b2 b3 b4 b5 : Z) :
  temp <> rh ->
  is_uint8 b3 -> is_uint8 b4 ->
  i2c_read_reply (bus_log m) read_packet = (0, [b0; b1; b2; b3; b4; b5]) ->
  shtc1_check_crc [b0; b1] 2 b2 = true ->
  shtc1_check_crc [b3; b4] 2 b5 = true ->
  let S := raw_code b3 b4 in
  let out := shtc1_read_async_result temp rh m in
  0 <= S < 65536 /\
  fst out = STATUS_OK /\
  store (snd out) !!! rh = Z.shiftr (12500 * S) 13 /\
  0 <= store (snd out) !!! rh /\
  (S = 0x8000 -> store (snd out) !!! rh = 50000).
Proof using int_bits_ge_32.
  intros Hne H3 H4 Hrd Hc1 Hc2 S out. subst out.
  rewrite <- (check_crc_first_pair b0 b1 b2 b3 b4 b5) in Hc1.
  rewrite <- (check_crc_second_pair b0 b1 b2 b3 b4 b5) in Hc2.
  pose proof (raw_code_range b3 b4 H3 H4) as HS. fold S in HS.
  destruct (scaled_product_range 12500 S ltac:(lia) HS) as [_ Hq].
  assert (Hval : store (snd (shtc1_read_async_result temp rh m)) !!! rh =
                 Z.shiftr (12500 * S) 13).
  { rewrite (read_async_result_ok temp rh m _ Hrd Hc1 Hc2).
    cbn [fst snd store byte_at nth].
    rewrite lookup_total_insert_eq.
    rewrite lookup_total_insert_ne by congruence.
    rewrite lookup_total_insert_eq.
    rewrite raw_code_int by assumption. apply humidity_int, HS. }
  rewrite Hval.
  split; [exact HS|]. split.
  { rewrite (read_async_result_ok temp rh m _ Hrd Hc1 Hc2). reflexivity. }
  split; [reflexivity|].
  split; [lia|]. intros HS8. rewrite HS8. reflexivity.
Qed.

(** ** The blocking read and the presence probe *)

Lemma read_async_result_log (temp rh : loc) (m : machine) :
  let reply := i2c_read_reply (bus_log m) read_packet in
  bus_log (snd (shtc1_read_async_result temp rh m)) =
  bus_log m ++ [EvRead read_packet (fst reply) (snd reply)].
Proof.
  intros reply. destruct reply as [r data] eqn:Hrd. subst reply.
  cbn [fst snd].
  destruct (Z.eq_dec r 0) as [-> | Hr].
  - destruct (shtc1_check_crc data 2 (byte_at data 2)) eqn:H1;
      [destruct (shtc1_check_crc (drop 3 data) 2 (byte_at data 5)) eqn:H2|].
    + rewrite (read_async_result_ok temp rh m data Hrd H1 H2). reflexivity.
    + rewrite (read_async_result_bad_crc temp rh m data Hrd (or_intror H2)).
      reflexivity.
    + rewrite (read_async_result_bad_crc temp rh m data Hrd (or_introl H1)).
      reflexivity.
  - rewrite (read_async_result_read_failed temp rh m r data Hrd Hr).
    reflexivity.
Qed.

Lemma shtc1_read_sync_unfold (command : list Z) (temp rh : loc)
    (m : machine) :
  let w := i2c_write_reply (bus_log m) false command_packet command in
  let m1 := mk_machine
              (bus_log m ++ [EvWriteNoStop command_packet command w;
                             EvDelay 50]) (store m) in
  shtc1_read_sync command temp rh m =
  if negb (w =? 0) then (w, m1) else shtc1_read_async_result temp rh m1.
Proof.
  intros w m1. subst m1. cbv [shtc1_read_sync bind delay_ms log_event
    i2c_master_write_packet_wait_no_stop ret].
  cbn [fst snd bus_log store]. fold command_packet. fold w.
  rewrite <- app_assoc. cbn [app].
  destruct (negb (w =? 0)); reflexivity.
Qed.

Lemma shtc1_probe_unfold (m : machine) :
  let w := i2c_write_reply (bus_log m) false command_packet CMD_READ_ID_REG in
  let m1 := mk_machine
              (bus_log m ++ [EvWriteNoStop command_packet CMD_READ_ID_REG w;
                             EvDelay 50]) (store m) in
  let reply := i2c_read_reply (bus_log m1) id_packet in
  let data := snd reply in
  shtc1_probe m =
  (if negb (fst reply =? 0) then false
   else if negb (shtc1_check_crc data 2 (byte_at data 2)) then false
   else Z.land (byte_at data 1) ID_REG_MASK =? ID_REG_CONTENT,
   mk_machine (bus_log m1 ++ [EvRead id_packet (fst reply) (snd reply)])
     (store m)).
Proof.
  intros w m1 reply data. subst data.
  cbv [shtc1_probe bind delay_ms log_event ret
    i2c_master_write_packet_wait_no_stop i2c_master_read_packet_wait].
  cbn [fst snd bus_log store address ten_bit_address high_speed].
  fold command_packet. fold w. fold id_packet.
  rewrite <- app_assoc. cbn [app]. fold m1.
  change (bus_log m ++ [EvWriteNoStop command_packet CMD_READ_ID_REG w;
                        EvDelay 50]) with (bus_log m1).
  fold reply. destruct reply as [r data]. cbn [fst snd].
  destruct (negb (r =? 0)); [reflexivity|].
  destruct (negb (shtc1_check_crc data 2 (byte_at data 2))); reflexivity.
Qed.

(** The result of decoding depends on the store and on what the read
    answered, not on the rest of the history. *)
Lemma read_async_result_depends_on_reply (temp rh : loc) (m m' : machine) :
  store m = store m' ->
  i2c_read_reply (bus_log m) read_packet =
  i2c_read_reply (bus_log m') read_packet ->
  fst (shtc1_read_async_result temp rh m) =
  fst (shtc1_read_async_result temp rh m') /\
  store (snd (shtc1_read_async_result temp rh m)) =
  store (snd (shtc1_read_async_result temp rh m')).
Proof.
  intros Hst Hrd.
  destruct (i2c_read_reply (bus_log m') read_packet) as [r data] eqn:Hrd'.
  destruct (Z.eq_dec r 0) as [-> | Hr].
  - destruct (shtc1_check_crc data 2 (byte_at data 2)) eqn:H1;
      [destruct (shtc1_check_crc (drop 3 data) 2 (byte_at data 5)) eqn:H2|].
    + rewrite (read_async_result_ok temp rh m data Hrd H1 H2).
      rewrite (read_async_result_ok temp rh m' data Hrd' H1 H2).
      cbn [fst snd store]. rewrite Hst. split; reflexivity.
    + rewrite (read_async_result_bad_crc temp rh m data Hrd (or_intror H2)).
      rewrite (read_async_result_bad_crc temp rh m' data Hrd' (or_intror H2)).
      cbn [fst snd store]. split; [reflexivity | exact Hst].
    + rewrite (read_async_result_bad_crc temp rh m data Hrd (or_introl H1)).
      rewrite (read_async_result_bad_crc temp rh m' data Hrd' (or_introl H1)).
      cbn [fst snd store]. split; [reflexivity | exact Hst].
  - rewrite (read_async_result_read_failed temp rh m r data Hrd Hr).
    rewrite (read_async_result_read_failed temp rh m' r data Hrd' Hr).
    cbn [fst snd store]. split; [reflexivity | exact Hst].
Qed.

(** C6. When the command write of the blocking read succeeded and its
    6-byte read answers what the read of the result-decoding operation
    answers, started from the same store, both return the same status and
    leave the same store, hence the same temperature and humidity: decoding
    does not depend on the protocol mode. This holds for the blocking read
    with any command, in particular in both of its modes. *)
Theorem sync_async_same_result (command : list Z) (temp rh : loc)
    (ms ma : machine) :
  i2c_write_reply (bus_log ms) false command_packet command = 0 ->
  store ma = store ms ->
  i2c_read_reply (bus_log ma) read_packet =
  i2c_read_reply
    (bus_log ms ++ [EvWriteNoStop command_packet command 0; EvDelay 50])
    read_packet ->
  let async := shtc1_read_async_result temp rh ma in
  let same (sync : Z * machine) : Prop :=
    fst sync = fst async /\
    store (snd sync) = store (snd async) /\
    store (snd sync) !!! temp = store (snd async) !!! temp /\
    store (snd sync) !!! rh = store (snd async) !!! rh in
  same (shtc1_read_sync command temp rh ms) /\
  (command = CMD_MEASURE_HPM_CS -> same (shtc1_read_hpm_sync temp rh ms)) /\
  (command = CMD_MEASURE_LPM_CS -> same (shtc1_read_lpm_sync temp rh ms)).
Proof.
  intros Hw Hst Hrd async same.
  assert (Hsame : same (shtc1_read_sync command temp rh ms)).
  { subst same async. cbv beta.
    rewrite shtc1_read_sync_unfold, Hw. cbn [Z.eqb negb].
    destruct (read_async_result_depends_on_reply temp rh
                (mk_machine
                   (bus_log ms ++
                    [EvWriteNoStop command_packet command 0; EvDelay 50])
                   (store ms)) ma) as [Hfst Hstore].
    - symmetry. exact Hst.
    - symmetry. exact Hrd.
    - rewrite Hfst, Hstore. repeat split; reflexivity. }
  split; [exact Hsame|].
  split; intros ->; exact Hsame.
Qed.

(** ** The presence probe *)

Lemma check_crc_id_pair (b0 b1 b2 : Z) :
  shtc1_check_crc [b0; b1; b2] 2 (byte_at [b0; b1; b2] 2) =
  shtc1_check_crc [b0; b1] 2 b2.
Proof.
  unfold shtc1_check_crc. rewrite !shtc1_crc_spec by (cbn [length]; lia).
  cbn [firstn byte_at nth]. reflexivity.
Qed.

(** What the probe answers, as a function of what its read answered. *)
Lemma shtc1_probe_answer (m : machine) :
  let w := i2c_write_reply (bus_log m) false command_packet CMD_READ_ID_REG in
  let reply :=
    i2c_read_reply
      (bus_log m ++ [EvWriteNoStop command_packet CMD_READ_ID_REG w;
                     EvDelay 50]) id_packet in
  let data := snd reply in
  fst (shtc1_probe m) =
  (fst reply =? 0) && shtc1_check_crc data 2 (byte_at data 2)
  && (byte_at data 1 mod 2 ^ 5 =? 0x07).
Proof.
  intros w reply data. subst data.
  rewrite shtc1_probe_unfold. cbn [fst snd bus_log store].
  change (i2c_read_reply _ id_packet) with reply.
  destruct reply as [r data]. cbn [fst snd].
  change ID_REG_MASK with (Z.ones 5). rewrite Z.land_ones by lia.
  destruct (r =? 0); [|reflexivity].
  destruct (shtc1_check_crc data 2 (byte_at data 2)); reflexivity.
Qed.

(** C7. The probe does not look at the status of its command write.
    Whatever the write answered, it waits and then reads 3 bytes from address
    0x70, these three bus operations in this order and no other, and the
    store is untouched. Its answer is decided by what the read answered and
    by nothing else: it is true exactly when the read succeeded, the CRC of
    the first two bytes against the third is valid and the low 5 bits of the
    second byte are 0x07, also after a failed write; and whenever the read
    fails, it is false. *)
Theorem probe_ignores_write_status (m : machine) :
  let packet := mk_packet 0x70 2 false false in
  let read := mk_packet 0x70 3 false false in
  let w := i2c_write_reply (bus_log m) false packet [0xef; 0xc8] in
  let log1 := bus_log m ++
              [EvWriteNoStop packet [0xef; 0xc8] w; EvDelay 50] in
  let reply := i2c_read_reply log1 read in
  let data := snd reply in
  let out := shtc1_probe m in
  bus_log (snd out) = log1 ++ [EvRead read (fst reply) (snd reply)] /\
  store (snd out) = store m /\
  (fst reply <> 0 -> fst out = false) /\
  fst out =
    ((fst reply =? 0) && shtc1_check_crc data 2 (byte_at data 2)
     && (byte_at data 1 mod 2 ^ 5 =? 0x07)) /\
  (fst out = true <->
   fst reply = 0 /\
   shtc1_check_crc data 2 (byte_at data 2) = true /\
   byte_at data 1 mod 2 ^ 5 = 0x07) /\
  (w <> 0 -> fst reply = 0 ->
   shtc1_check_crc data 2 (byte_at data 2) = true ->
   byte_at data 1 mod 2 ^ 5 = 0x07 ->
   fst out = true).
Proof.
  intros packet read w log1 reply data out.
  assert (Hans : fst out =
    ((fst reply =? 0) && shtc1_check_crc data 2 (byte_at data 2)
     && (byte_at data 1 mod 2 ^ 5 =? 0x07))).
  { exact (shtc1_probe_answer m). }
  assert (Hiff : fst out = true <->
    fst reply = 0 /\
    shtc1_check_crc data 2 (byte_at data 2) = true /\
    byte_at data 1 mod 2 ^ 5 = 0x07).
  { rewrite Hans, !andb_true_iff, !Z.eqb_eq. tauto. }
  split; [|split; [|split; [|split; [exact Hans|split; [exact Hiff|]]]]].
  - subst out. rewrite shtc1_probe_unfold. reflexivity.
  - subst out. rewrite shtc1_probe_unfold. reflexivity.
  - intros Hr. rewrite Hans. apply Z.eqb_neq in Hr. rewrite Hr. reflexivity.
  - intros _ Hr Hcrc Hsig. apply Hiff. repeat split; assumption.
Qed.

(** C8. When the 3-byte read succeeded and the CRC of the first two bytes
    against the third is valid, the probe returns true exactly when the low
    5 bits of the second byte are 0x07; with any other low 5 bits it returns
    false although the CRC is valid. *)
Theorem probe_signature (m : machine) (b0 b1 b2 : Z) :
  let w := i2c_write_reply (bus_log m) false command_packet [0xef; 0xc8] in
  i2c_read_reply
    (bus_log m ++ [EvWriteNoStop command_packet [0xef; 0xc8] w; EvDelay 50])
    id_packet = (0, [b0; b1; b2]) ->
  shtc1_check_crc [b0; b1] 2 b2 = true ->
  (fst (shtc1_probe m) = true <-> b1 mod 2 ^ 5 = 0x07) /\
  (b1 mod 2 ^ 5 <> 0x07 -> fst (shtc1_probe m) = false).
Proof.
  intros w Hrd Hcrc.
  assert (Hprobe : fst (shtc1_probe m) = (b1 mod 2 ^ 5 =? 0x07)).
  { rewrite shtc1_probe_unfold. cbn [fst snd bus_log store].
    change CMD_READ_ID_REG with [0xef; 0xc8]. fold w. rewrite Hrd.
    cbn [fst snd]. rewrite check_crc_id_pair, Hcrc.
    cbn [Z.eqb negb byte_at nth].
    change ID_REG_MASK with (Z.ones 5). rewrite Z.land_ones by lia.
    reflexivity. }
  rewrite Hprobe. split.
  - apply Z.eqb_eq.
  - apply Z.eqb_neq.
Qed.

(** ** Further properties of the checksum *)

(** A property that holds at each of the 256 values of a byte holds for
    every byte. *)
Lemma uint8_cases (P : Z -> bool) :
  forallb P (map Z.of_nat (seq 0 256)) = true ->
  forall b : Z, is_uint8 b -> P b = true.
Proof.
  intros Hall b Hb. rewrite forallb_forall in Hall. apply Hall.
  replace b with (Z.of_nat (Z.to_nat b)) by (unfold is_uint8 in Hb; lia).
  apply in_map, in_seq. unfold is_uint8 in Hb. lia.
Qed.

(** Eight shift steps send no byte but zero to zero. *)
Lemma shift_steps_nonzero (d : Z) :
  is_uint8 d -> d <> 0 -> Nat.iter 8 spec_shift_step d <> 0.
Proof.
  intros Hd Hnz Hz.
  pose proof (uint8_cases
    (fun x => (x =? 0) || negb (Nat.iter 8 spec_shift_step x =? 0))) as Hall.
  cbv beta in Hall. specialize (Hall ltac:(vm_compute; reflexivity) d Hd).
  rewrite Hz in Hall. apply Z.eqb_neq in Hnz. rewrite Hnz in Hall.
  discriminate Hall.
Qed.

Lemma lxor_cancel_l (a b c : Z) : Z.lxor a b = Z.lxor a c -> b = c.
Proof.
  intros H. apply (f_equal (Z.lxor a)) in H.
  rewrite <- !Z.lxor_assoc, Z.lxor_nilpotent, !Z.lxor_0_l in H. exact H.
Qed.

Lemma lxor_cancel_r (a b c : Z) : Z.lxor b a = Z.lxor c a -> b = c.
Proof. rewrite !(Z.lxor_comm _ a). apply lxor_cancel_l. Qed.

Lemma land_mask_uint8 (b : Z) : is_uint8 b -> Z.land b 0xFF = b.
Proof. intros Hb. rewrite <- to_uint8_land. apply to_uint8_small, Hb. Qed.

(** The eight shift steps are injective on masked registers. *)
Lemma shift_steps_inj (u v : Z) :
  Nat.iter 8 spec_shift_step (Z.land u 0xFF) =
  Nat.iter 8 spec_shift_step (Z.land v 0xFF) ->
  Z.land u 0xFF = Z.land v 0xFF.
Proof.
  intros Heq. apply Z.lxor_eq.
  destruct (Z.eq_dec (Z.lxor (Z.land u 0xFF) (Z.land v 0xFF)) 0)
    as [Hz | Hnz]; [exact Hz | exfalso].
  apply (shift_steps_nonzero (Z.lxor (Z.land u 0xFF) (Z.land v 0xFF))).
  - rewrite <- land_lxor_mask, <- to_uint8_land. apply to_uint8_range.
  - exact Hnz.
  - rewrite iter_shift_step_lxor, Heq. apply Z.lxor_nilpotent.
Qed.

Lemma spec_byte_step_uint8 (reg byte : Z) : is_uint8 (spec_byte_step reg byte).
Proof.
  unfold spec_byte_step. rewrite Nat.iter_succ. unfold spec_shift_step at 1.
  destruct (Z.testbit _ 7); rewrite <- to_uint8_land; apply to_uint8_range.
Qed.

Lemma spec_byte_step_inj_byte (reg b b' : Z) :
  is_uint8 b -> is_uint8 b' ->
  spec_byte_step reg b = spec_byte_step reg b' -> b = b'.
Proof.
  intros Hb Hb' Heq. unfold spec_byte_step in Heq.
  apply shift_steps_inj in Heq.
  rewrite !land_lxor_mask, !(land_mask_uint8 b), !(land_mask_uint8 b') in Heq
    by assumption.
  exact (lxor_cancel_l _ _ _ Heq).
Qed.

Lemma spec_byte_step_inj_reg (reg reg' b : Z) :
  is_uint8 reg -> is_uint8 reg' ->
  spec_byte_step reg b = spec_byte_step reg' b -> reg = reg'.
Proof.
  intros Hr Hr' Heq. unfold spec_byte_step in Heq.
  apply shift_steps_inj in Heq.
  rewrite !land_lxor_mask, !(land_mask_uint8 reg), !(land_mask_uint8 reg')
    in Heq by assumption.
  exact (lxor_cancel_r _ _ _ Heq).
Qed.

Lemma fold_byte_step_uint8 (data : list Z) (reg : Z) :
  is_uint8 reg -> is_uint8 (fold_left spec_byte_step data reg).
Proof.
  revert reg. induction data as [|b data IH]; intros reg Hr; [exact Hr|].
  cbn [fold_left]. apply IH, spec_byte_step_uint8.
Qed.

Lemma fold_byte_step_inj_reg (data : list Z) (reg reg' : Z) :
  is_uint8 reg -> is_uint8 reg' -> reg <> reg' ->
  fold_left spec_byte_step data reg <> fold_left spec_byte_step data reg'.
Proof.
  revert reg reg'. induction data as [|b data IH]; intros reg reg' Hr Hr' Hne;
    [exact Hne|].
  cbn [fold_left]. apply IH; try apply spec_byte_step_uint8.
  intros Heq. apply Hne. exact (spec_byte_step_inj_reg _ _ _ Hr Hr' Heq).
Qed.

Lemma CRC_INIT_uint8 : is_uint8 0xFF.
Proof. unfold is_uint8. lia. Qed.

(** Two payloads that differ in one byte have different checksums. *)
Lemma spec_crc_byte_change (pre post : list Z) (b b' : Z) :
  is_uint8 b -> is_uint8 b' -> b <> b' ->
  spec_compute_crc (pre ++ b' :: post) <> spec_compute_crc (pre ++ b :: post).
Proof.
  intros Hb Hb' Hne. unfold spec_compute_crc.
  rewrite !fold_left_app. cbn [fold_left].
  apply fold_byte_step_inj_reg; try apply spec_byte_step_uint8.
  intros Heq. apply Hne. symmetry.
  exact (spec_byte_step_inj_byte _ _ _ Hb' Hb Heq).
Qed.

(** X1. Any corruption confined to one byte is detected, whatever the
    length of the payload: when the byte at a position below [data_length]
    is replaced by a different byte, the validation of the payload against
    the checksum of the original fails. *)
Theorem crc_detects_byte_corruption (data : list Z) (data_length pos : nat)
    (v : Z) :
  (data_length <= length data)%nat ->
  (pos < data_length)%nat ->
  is_uint8 (byte_at data pos) ->
  is_uint8 v ->
  v <> byte_at data pos ->
  shtc1_check_crc (<[pos := v]> data) data_length
    (shtc1_crc data data_length) = false.
Proof.
  intros Hlen Hpos Hb Hv Hne. unfold shtc1_check_crc. apply Z.eqb_neq.
  rewrite !shtc1_crc_spec by (rewrite ?length_insert; lia).
  rewrite take_insert_lt by lia.
  assert (Hpos' : (pos < length (take data_length data))%nat).
  { rewrite length_take. lia. }
  assert (Hat : take data_length data !! pos = Some (byte_at data pos)).
  { rewrite lookup_take_lt by lia. unfold byte_at.
    destruct (lookup_lt_is_Some_2 data pos) as [x Hx]; [lia|].
    rewrite Hx. f_equal. symmetry. exact (nth_lookup_Some _ _ 0 _ Hx). }
  rewrite insert_take_drop by exact Hpos'.
  rewrite <- (take_drop_middle (take data_length data) pos _ Hat) at 3.
  apply spec_crc_byte_change; [exact Hb | exact Hv | congruence].
Qed.

(** X2. The residue: the checksum of a payload followed by its own
    checksum is zero. The payload has fewer than 255 bytes, so that the
    length passed, one more than the payload's, is one that the [uint8_t]
    parameter [data_length] holds. *)
Theorem crc_of_payload_with_checksum (data : list Z) :
  (length data < 255)%nat ->
  shtc1_crc (data ++ [shtc1_crc data (length data)]) (S (length data)) = 0 /\
  shtc1_check_crc (data ++ [shtc1_crc data (length data)])
    (S (length data)) 0 = true.
Proof.
  intros _.
  assert (Hz : shtc1_crc (data ++ [shtc1_crc data (length data)])
                 (S (length data)) = 0).
  { rewrite !shtc1_crc_spec by (rewrite ?length_app; cbn [length]; lia).
    rewrite firstn_all.
    replace (S (length data)) with
      (length (data ++ [spec_compute_crc data]))
      by (rewrite length_app; cbn [length]; lia).
    rewrite firstn_all. unfold spec_compute_crc at 1.
    rewrite fold_left_app. cbn [fold_left].
    fold (spec_compute_crc data). unfold spec_byte_step.
    rewrite Z.lxor_nilpotent. vm_compute. reflexivity. }
  split; [exact Hz|]. unfold shtc1_check_crc. rewrite Hz. reflexivity.
Qed.

(** X3. The routine looks at the first [data_length] bytes only: two
    buffers that agree on them have the same checksum and validate against
    the same bytes. *)
Theorem crc_reads_only_data_length (data data' : list Z) (data_length : nat)
    (checksum : Z) :
  (data_length <= length data)%nat ->
  (data_length <= length data')%nat ->
  take data_length data = take data_length data' ->
  shtc1_crc data data_length = shtc1_crc data' data_length /\
  shtc1_check_crc data data_length checksum =
  shtc1_check_crc data' data_length checksum.
Proof.
  intros Hl Hl' Heq.
  assert (Hc : shtc1_crc data data_length = shtc1_crc data' data_length).
  { rewrite !shtc1_crc_spec by assumption. rewrite Heq. reflexivity. }
  split; [exact Hc|]. unfold shtc1_check_crc. rewrite Hc. reflexivity.
Qed.

(** ** Further properties of the result decoding *)

(** What an accepted frame leaves in the store. *)
Lemma accepted_frame_store (temp rh : loc) (m : machine)
    (b0 b1 b2 b3 b4 b5 : Z) :
  temp <> rh ->
  is_uint8 b0 -> is_uint8 b1 -> is_uint8 b3 -> is_uint8 b4 ->
  i2c_read_reply (bus_log m) read_packet = (0, [b0; b1; b2; b3; b4; b5]) ->
  shtc1_check_crc [b0; b1] 2 b2 = true ->
  shtc1_check_crc [b3; b4] 2 b5 = true ->
  shtc1_read_async_result temp rh m =
  (STATUS_OK,
   mk_machine
     (bus_log m ++ [EvRead read_packet 0 [b0; b1; b2; b3; b4; b5]])
     (<[rh := Z.shiftr (12500 * raw_code b3 b4) 13]>
        (<[temp := Z.shiftr (21875 * raw_code b0 b1) 13 - 45000]>
           (store m)))).
Proof using int_bits_ge_32.
  intros Hne H0 H1 H3 H4 Hrd Hc1 Hc2.
  rewrite <- (check_crc_first_pair b0 b1 b2 b3 b4 b5) in Hc1.
  rewrite <- (check_crc_second_pair b0 b1 b2 b3 b4 b5) in Hc2.
  rewrite (read_async_result_ok temp rh m _ Hrd Hc1 Hc2).
  cbn [byte_at nth]. f_equal. f_equal.
  rewrite !raw_code_int by assumption.
  repeat (rewrite lookup_total_insert_eq
          || rewrite lookup_total_insert_ne by congruence).
  rewrite temperature_int by (apply raw_code_range; assumption).
  rewrite humidity_int by (apply raw_code_range; assumption).
  apply map_eq. intros p.
  destruct (decide (p = rh)) as [-> | Hprh].
  { rewrite !lookup_insert_eq. reflexivity. }
  destruct (decide (p = temp)) as [-> | Hpt];
    repeat (rewrite lookup_insert_eq
            || rewrite lookup_insert_ne by congruence);
    reflexivity.
Qed.

Lemma check_crc_own_checksum (data : list Z) (n : nat) :
  shtc1_check_crc data n (shtc1_crc data n) = true.
Proof. unfold shtc1_check_crc. apply Z.eqb_refl. Qed.

Lemma shiftr_13_range (c S : Z) :
  0 <= c -> 0 <= S <= 65535 ->
  0 <= Z.shiftr (c * S) 13 <= (c * 65535) / 8192.
Proof.
  intros Hc HS. rewrite Z.shiftr_div_pow2 by lia. change (2 ^ 13) with 8192.
  split.
  - apply Z.div_pos; nia.
  - apply Z.div_le_mono; nia.
Qed.

Lemma shiftr_13_scaled (c S : Z) :
  Z.shiftr (c * S) 13 = (8 * c * S) / 65536.
Proof.
  rewrite Z.shiftr_div_pow2 by lia. change (2 ^ 13) with 8192.
  replace (8 * c * S) with ((c * S) * 8) by lia.
  change 65536 with (8192 * 8). rewrite Z.div_mul_cancel_r by lia.
  reflexivity.
Qed.

Lemma shiftr_13_monotone (c S S' : Z) :
  0 <= c -> S <= S' -> Z.shiftr (c * S) 13 <= Z.shiftr (c * S') 13.
Proof.
  intros Hc HS. rewrite !Z.shiftr_div_pow2 by lia.
  apply Z.div_le_mono; [lia | nia].
Qed.

Lemma byte_at_cons_0 (b : Z) (data : list Z) : byte_at (b :: data) 0 = b.
Proof. reflexivity. Qed.

Lemma byte_at_cons_S (b : Z) (data : list Z) (i : nat) :
  byte_at (b :: data) (S i) = byte_at data i.
Proof. reflexivity. Qed.

Lemma crc_pair_first_byte_change (b0 b1 v : Z) :
  is_uint8 b0 -> is_uint8 v -> v <> b0 ->
  shtc1_check_crc [v; b1] 2 (shtc1_crc [b0; b1] 2) = false.
Proof.
  intros H0 Hv Hne. unfold shtc1_check_crc. apply Z.eqb_neq.
  rewrite !shtc1_crc_spec by (cbn [length]; lia). cbn [firstn].
  exact (spec_crc_byte_change [] [b1] b0 v H0 Hv (not_eq_sym Hne)).
Qed.

Lemma crc_pair_second_byte_change (b0 b1 v : Z) :
  is_uint8 b1 -> is_uint8 v -> v <> b1 ->
  shtc1_check_crc [b0; v] 2 (shtc1_crc [b0; b1] 2) = false.
Proof.
  intros H1 Hv Hne. unfold shtc1_check_crc. apply Z.eqb_neq.
  rewrite !shtc1_crc_spec by (cbn [length]; lia). cbn [firstn].
  exact (spec_crc_byte_change [b0] [] b1 v H1 Hv (not_eq_sym Hne)).
Qed.

Lemma crc_pair_checksum_change (b0 b1 v : Z) :
  v <> shtc1_crc [b0; b1] 2 -> shtc1_check_crc [b0; b1] 2 v = false.
Proof.
  intros Hne. unfold shtc1_check_crc. apply Z.eqb_neq. congruence.
Qed.

(** X4. Round trip: a frame whose two checksum bytes are the ones the
    routine computes for its two pairs is always accepted, and decodes to
    the two converted raw codes. *)
Theorem computed_checksums_accepted (temp rh : loc) (m : machine)
    (b0 b1 b3 b4 : Z) :
  temp <> rh ->
  is_uint8 b0 -> is_uint8 b1 -> is_uint8 b3 -> is_uint8 b4 ->
  i2c_read_reply (bus_log m) read_packet =
  (0, [b0; b1; shtc1_crc [b0; b1] 2; b3; b4; shtc1_crc [b3; b4] 2]) ->
  let out := shtc1_read_async_result temp rh m in
  fst out = STATUS_OK /\
  store (snd out) !!! temp = Z.shiftr (21875 * raw_code b0 b1) 13 - 45000 /\
  store (snd out) !!! rh = Z.shiftr (12500 * raw_code b3 b4) 13.
Proof using int_bits_ge_32.
  intros Hne H0 H1 H3 H4 Hrd out. subst out.
  rewrite (accepted_frame_store temp rh m _ _ _ _ _ _ Hne H0 H1 H3 H4 Hrd
             (check_crc_own_checksum _ _) (check_crc_own_checksum _ _)).
  cbn [fst snd store]. split; [reflexivity|]. split.
  - rewrite lookup_total_insert_ne by congruence.
    apply lookup_total_insert_eq.
  - apply lookup_total_insert_eq.
Qed.

(** X5. A valid frame in which any one of the six bytes, payload or
    checksum, was replaced by a different byte is rejected with the
    bad-data error, and nothing is written. *)
Theorem damaged_frame_is_rejected (temp rh : loc) (m : machine)
    (b0 b1 b3 b4 : Z) (pos : nat) (v : Z) :
  let frame := [b0; b1; shtc1_crc [b0; b1] 2; b3; b4; shtc1_crc [b3; b4] 2] in
  is_uint8 b0 -> is_uint8 b1 -> is_uint8 b3 -> is_uint8 b4 ->
  (pos < 6)%nat ->
  is_uint8 v ->
  v <> byte_at frame pos ->
  i2c_read_reply (bus_log m) read_packet = (0, <[pos := v]> frame) ->
  let out := shtc1_read_async_result temp rh m in
  fst out = STATUS_ERR_BAD_DATA /\ store (snd out) = store m.
Proof.
  intros frame H0 H1 H3 H4 Hpos Hv Hne Hrd out. subst out frame.
  assert (Hbad :
    shtc1_check_crc
      (<[pos := v]> [b0; b1; shtc1_crc [b0; b1] 2;
                     b3; b4; shtc1_crc [b3; b4] 2]) 2
      (byte_at (<[pos := v]> [b0; b1; shtc1_crc [b0; b1] 2;
                              b3; b4; shtc1_crc [b3; b4] 2]) 2) = false \/
    shtc1_check_crc
      (drop 3 (<[pos := v]> [b0; b1; shtc1_crc [b0; b1] 2;
                             b3; b4; shtc1_crc [b3; b4] 2])) 2
      (byte_at (<[pos := v]> [b0; b1; shtc1_crc [b0; b1] 2;
                              b3; b4; shtc1_crc [b3; b4] 2]) 5) = false).
  { destruct pos as [|[|[|[|[|[|pos]]]]]]; [| | | | | |lia];
      cbn [insert list_insert];
      rewrite ?byte_at_cons_S, byte_at_cons_0 in Hne;
      rewrite check_crc_first_pair, check_crc_second_pair.
    - left. apply crc_pair_first_byte_change; assumption.
    - left. apply crc_pair_second_byte_change; assumption.
    - left. apply crc_pair_checksum_change; assumption.
    - right. apply crc_pair_first_byte_change; assumption.
    - right. apply crc_pair_second_byte_change; assumption.
    - right. apply crc_pair_checksum_change; assumption. }
  rewrite (read_async_result_bad_crc temp rh m _ Hrd Hbad).
  split; reflexivity.
Qed.

(** X6. Every accepted frame yields a temperature between -45000 and
    129997 milli-degrees and a humidity between 0 and 99998 milli-percent. *)
Theorem accepted_outputs_in_range (temp rh : loc) (m : machine)
    (b0 b1 b2 b3 b4 b5 : Z) :
  temp <> rh ->
  is_uint8 b0 -> is_uint8 b1 -> is_uint8 b3 -> is_uint8 b4 ->
  i2c_read_reply (bus_log m) read_packet = (0, [b0; b1; b2; b3; b4; b5]) ->
  shtc1_check_crc [b0; b1] 2 b2 = true ->
  shtc1_check_crc [b3; b4] 2 b5 = true ->
  let out := shtc1_read_async_result temp rh m in
  -45000 <= store (snd out) !!! temp <= 129997 /\
  0 <= store (snd out) !!! rh <= 99998.
Proof using int_bits_ge_32.
  intros Hne H0 H1 H3 H4 Hrd Hc1 Hc2 out. subst out.
  rewrite (accepted_frame_store temp rh m _ _ _ _ _ _ Hne H0 H1 H3 H4 Hrd
             Hc1 Hc2).
  cbn [fst snd store].
  rewrite lookup_total_insert_eq.
  rewrite lookup_total_insert_ne by congruence.
  rewrite lookup_total_insert_eq.
  pose proof (raw_code_range b0 b1 H0 H1) as HT.
  pose proof (raw_code_range b3 b4 H3 H4) as HH.
  pose proof (shiftr_13_range 21875 (raw_code b0 b1) ltac:(lia) ltac:(lia))
    as HrT.
  pose proof (shiftr_13_range 12500 (raw_code b3 b4) ltac:(lia) ltac:(lia))
    as HrH.
  change (21875 * 65535 / 8192) with 174997 in HrT.
  change (12500 * 65535 / 8192) with 99998 in HrH.
  lia.
Qed.

(** X7. The outputs are the formulas of the comment in the source, in
    thousandths and rounded down: the temperature of an accepted frame is
    the integer part of [175000 * S / 2^16] less 45000, its humidity the
    integer part of [100000 * S / 2^16]. *)
Theorem conversion_is_documented_formula (temp rh : loc) (m : machine)
    (b0 b1 b2 b3 b4 b5 : Z) :
  temp <> rh ->
  is_uint8 b0 -> is_uint8 b1 -> is_uint8 b3 -> is_uint8 b4 ->
  i2c_read_reply (bus_log m) read_packet = (0, [b0; b1; b2; b3; b4; b5]) ->
  shtc1_check_crc [b0; b1] 2 b2 = true ->
  shtc1_check_crc [b3; b4] 2 b5 = true ->
  let out := shtc1_read_async_result temp rh m in
  store (snd out) !!! temp = (175 * 1000 * raw_code b0 b1) / 2 ^ 16 - 45 * 1000 /\
  store (snd out) !!! rh = (100 * 1000 * raw_code b3 b4) / 2 ^ 16.
Proof using int_bits_ge_32.
  intros Hne H0 H1 H3 H4 Hrd Hc1 Hc2 out. subst out.
  rewrite (accepted_frame_store temp rh m _ _ _ _ _ _ Hne H0 H1 H3 H4 Hrd
             Hc1 Hc2).
  cbn [fst snd store].
  rewrite lookup_total_insert_eq.
  rewrite lookup_total_insert_ne by congruence.
  rewrite lookup_total_insert_eq.
  rewrite !shiftr_13_scaled. split; reflexivity.
Qed.

(** X8. The conversion is monotone: of two accepted frames, the one with
    the larger raw temperature code never decodes to the lower temperature,
    and likewise for humidity. *)
Theorem conversion_is_monotone (temp rh : loc) (m m' : machine)
    (b0 b1 b2 b3 b4 b5 c0 c1 c2 c3 c4 c5 : Z) :
  temp <> rh ->
  Forall is_uint8 [b0; b1; b3; b4; c0; c1; c3; c4] ->
  i2c_read_reply (bus_log m) read_packet = (0, [b0; b1; b2; b3; b4; b5]) ->
  i2c_read_reply (bus_log m') read_packet = (0, [c0; c1; c2; c3; c4; c5]) ->
  shtc1_check_crc [b0; b1] 2 b2 = true ->
  shtc1_check_crc [b3; b4] 2 b5 = true ->
  shtc1_check_crc [c0; c1] 2 c2 = true ->
  shtc1_check_crc [c3; c4] 2 c5 = true ->
  let out := shtc1_read_async_result temp rh m in
  let out' := shtc1_read_async_result temp rh m' in
  (raw_code b0 b1 <= raw_code c0 c1 ->
   store (snd out) !!! temp <= store (snd out') !!! temp) /\
  (raw_code b3 b4 <= raw_code c3 c4 ->
   store (snd out) !!! rh <= store (snd out') !!! rh).
Proof using int_bits_ge_32.
  intros Hne Hall Hrd Hrd' Hb1 Hb2 Hc1 Hc2 out out'. subst out out'.
  repeat (apply Forall_cons_1 in Hall; destruct Hall as [? Hall]).
  rewrite (accepted_frame_store temp rh m b0 b1 b2 b3 b4 b5) by assumption.
  rewrite (accepted_frame_store temp rh m' c0 c1 c2 c3 c4 c5) by assumption.
  cbn [fst snd store].
  rewrite !lookup_total_insert_eq.
  rewrite !(lookup_total_insert_ne _ rh temp) by congruence.
  rewrite !lookup_total_insert_eq.
  split; intros Hle.
  - pose proof (shiftr_13_monotone 21875 _ _ ltac:(lia) Hle). lia.
  - exact (shiftr_13_monotone 12500 _ _ ltac:(lia) Hle).
Qed.

(** X9. The result decoding changes no location of the store but the two
    outputs, whatever the transport answers, and adds exactly one event, its
    6-byte read, to the history of the bus. *)
Theorem read_async_result_frame (temp rh : loc) (m : machine) (p : loc) :
  p <> temp -> p <> rh ->
  let reply := i2c_read_reply (bus_log m) read_packet in
  let out := shtc1_read_async_result temp rh m in
  store (snd out) !! p = store m !! p /\
  bus_log (snd out) =
  bus_log m ++ [EvRead (mk_packet 0x70 6 false false) (fst reply) (snd reply)].
Proof.
  intros Hpt Hph reply out. split; [|apply read_async_result_log].
  subst out. destruct reply as [r data] eqn:Hrd. subst reply.
  destruct (Z.eq_dec r 0) as [-> | Hr].
  - destruct (shtc1_check_crc data 2 (byte_at data 2)) eqn:H1;
      [destruct (shtc1_check_crc (drop 3 data) 2 (byte_at data 5)) eqn:H2|].
    + rewrite (read_async_result_ok temp rh m data Hrd H1 H2).
      cbn [fst snd store].
      repeat (rewrite lookup_insert_ne by congruence). reflexivity.
    + rewrite (read_async_result_bad_crc temp rh m data Hrd (or_intror H2)).
      reflexivity.
    + rewrite (read_async_result_bad_crc temp rh m data Hrd (or_introl H1)).
      reflexivity.
  - rewrite (read_async_result_read_failed temp rh m r data Hrd Hr).
    reflexivity.
Qed.

(** ** Status codes and the protocol on the bus *)

(** The status of the result decoding, case by case. *)
Lemma read_async_result_status_cases (temp rh : loc) (m : machine) :
  let reply := i2c_read_reply (bus_log m) read_packet in
  let data := snd reply in
  let out := shtc1_read_async_result temp rh m in
  (fst reply <> 0 /\ fst out = fst reply /\ store (snd out) = store m) \/
  (fst reply = 0 /\
   (shtc1_check_crc data 2 (byte_at data 2) = false \/
    shtc1_check_crc (drop 3 data) 2 (byte_at data 5) = false) /\
   fst out = STATUS_ERR_BAD_DATA /\ store (snd out) = store m) \/
  (fst reply = 0 /\
   shtc1_check_crc data 2 (byte_at data 2) = true /\
   shtc1_check_crc (drop 3 data) 2 (byte_at data 5) = true /\
   fst out = STATUS_OK).
Proof.
  intros reply data out. subst out data.
  destruct reply as [r data] eqn:Hrd. subst reply. cbn [fst snd].
  destruct (Z.eq_dec r 0) as [-> | Hr].
  - destruct (shtc1_check_crc data 2 (byte_at data 2)) eqn:H1;
      [destruct (shtc1_check_crc (drop 3 data) 2 (byte_at data 5)) eqn:H2|].
    + right. right.
      rewrite (read_async_result_ok temp rh m data Hrd H1 H2).
      repeat split; reflexivity.
    + right. left.
      rewrite (read_async_result_bad_crc temp rh m data Hrd (or_intror H2)).
      repeat split. right. reflexivity.
    + right. left.
      rewrite (read_async_result_bad_crc temp rh m data Hrd (or_introl H1)).
      repeat split. left. reflexivity.
  - left. rewrite (read_async_result_read_failed temp rh m r data Hrd Hr).
    repeat split. exact Hr.
Qed.

(** X10. The result decoding swallows no error. A failed read returns the
    status of the transport as it is and leaves the store alone; and, with
    zero as the success status, success is returned exactly when the read
    succeeded and both CRC checks passed. *)
Theorem read_async_result_status (temp rh : loc) (m : machine) :
  STATUS_OK = 0 ->
  let reply := i2c_read_reply (bus_log m) read_packet in
  let data := snd reply in
  let out := shtc1_read_async_result temp rh m in
  (fst reply <> 0 -> fst out = fst reply /\ store (snd out) = store m) /\
  (fst out = STATUS_OK <->
   fst reply = 0 /\
   shtc1_check_crc data 2 (byte_at data 2) = true /\
   shtc1_check_crc (drop 3 data) 2 (byte_at data 5) = true).
Proof using STATUS_ERR_BAD_DATA_not_OK.
  intros Hok reply data out. subst out data reply.
  destruct (read_async_result_status_cases temp rh m)
    as [(Hr & Hst & Hs) | [(Hr & Hcrc & Hst & Hs) | (Hr & H1 & H2 & Hst)]].
  - split; [intros _; split; [exact Hst | exact Hs]|].
    split; [|intros [Hr0 _]; contradiction].
    intros Hout. rewrite Hst, Hok in Hout. contradiction.
  - split; [intros Hne; contradiction|].
    split; [|intros (_ & H1 & H2); destruct Hcrc; congruence].
    intros Hout. rewrite Hst in Hout. contradiction.
  - split; [intros Hne; contradiction|].
    split; [intros _|intros _; exact Hst].
    split; [exact Hr|]. split; [exact H1 | exact H2].
Qed.

Lemma read_sync_status_cases (command : list Z) (temp rh : loc)
    (m : machine) :
  STATUS_OK = 0 ->
  let w := i2c_write_reply (bus_log m) false command_packet command in
  let reply :=
    i2c_read_reply
      (bus_log m ++ [EvWriteNoStop command_packet command w; EvDelay 50])
      read_packet in
  let data := snd reply in
  let out := shtc1_read_sync command temp rh m in
  (fst out = STATUS_OK <->
   w = 0 /\ fst reply = 0 /\
   shtc1_check_crc data 2 (byte_at data 2) = true /\
   shtc1_check_crc (drop 3 data) 2 (byte_at data 5) = true) /\
  (w = 0 -> fst reply <> 0 -> fst out = fst reply) /\
  (fst out <> STATUS_OK -> store (snd out) = store m).
Proof using STATUS_ERR_BAD_DATA_not_OK.
  intros Hok w reply data out.
  subst out data reply. rewrite shtc1_read_sync_unfold. fold w.
  destruct (Z.eq_dec w 0) as [Hw | Hw].
  - rewrite Hw. cbn [Z.eqb negb].
    pose proof (read_async_result_status_cases temp rh
      (mk_machine
         (bus_log m ++ [EvWriteNoStop command_packet command 0; EvDelay 50])
         (store m))) as Hcases.
    cbv zeta in Hcases. cbn [bus_log store] in Hcases.
    destruct Hcases
      as [(Hr & Hst & Hs) | [(Hr & Hcrc & Hst & Hs) | (Hr & H1 & H2 & Hst)]].
    + split; [|split].
      * split; [|intros (_ & Hr0 & _); contradiction].
        intros Hout. rewrite Hst, Hok in Hout. contradiction.
      * intros _ _. exact Hst.
      * intros _. exact Hs.
    + split; [|split].
      * split; [|intros (_ & _ & H1 & H2); destruct Hcrc; congruence].
        intros Hout. rewrite Hst in Hout. contradiction.
      * intros _ Hne. contradiction.
      * intros _. exact Hs.
    + split; [|split].
      * split; [intros _|intros _; exact Hst]. repeat split; assumption.
      * intros _ Hne. contradiction.
      * intros Hne. contradiction.
  - apply Z.eqb_neq in Hw as Hwb. rewrite Hwb. cbn [negb fst snd store].
    split; [|split].
    + split; [|intros (Hw0 & _); contradiction].
      intros Hout. rewrite Hok in Hout. contradiction.
    + intros Hw0. contradiction.
    + intros _. reflexivity.
Qed.

(** What an accepted read leaves in the store, for a buffer of any
    content. *)
Lemma accepted_data_store (temp rh : loc) (m : machine) (data : list Z) :
  temp <> rh ->
  is_uint8 (byte_at data 0) -> is_uint8 (byte_at data 1) ->
  is_uint8 (byte_at data 3) -> is_uint8 (byte_at data 4) ->
  i2c_read_reply (bus_log m) read_packet = (0, data) ->
  shtc1_check_crc data 2 (byte_at data 2) = true ->
  shtc1_check_crc (drop 3 data) 2 (byte_at data 5) = true ->
  let out := shtc1_read_async_result temp rh m in
  fst out = STATUS_OK /\
  store (snd out) !!! temp =
    Z.shiftr (21875 * raw_code (byte_at data 0) (byte_at data 1)) 13 - 45000 /\
  store (snd out) !!! rh =
    Z.shiftr (12500 * raw_code (byte_at data 3) (byte_at data 4)) 13.
Proof using int_bits_ge_32.
  intros Hne H0 H1 H3 H4 Hrd Hc1 Hc2 out. subst out.
  rewrite (read_async_result_ok temp rh m data Hrd Hc1 Hc2).
  cbn [fst snd store]. split; [reflexivity|].
  rewrite !raw_code_int by assumption.
  repeat (rewrite lookup_total_insert_eq
          || rewrite lookup_total_insert_ne by congruence).
  rewrite temperature_int by (apply raw_code_range; assumption).
  rewrite humidity_int by (apply raw_code_range; assumption).
  split; reflexivity.
Qed.

(** The blocking read, step by step, for any command. *)
Lemma read_sync_steps (command : list Z) (temp rh : loc) (m : machine) :
  let w := i2c_write_reply (bus_log m) false command_packet command in
  let m1 := mk_machine
              (bus_log m ++ [EvWriteNoStop command_packet command w;
                             EvDelay 50]) (store m) in
  let reply := i2c_read_reply (bus_log m1) read_packet in
  let data := snd reply in
  let out := shtc1_read_sync command temp rh m in
  (w <> 0 -> out = (w, m1)) /\
  (w = 0 ->
   out = shtc1_read_async_result temp rh m1 /\
   bus_log (snd out) =
   bus_log m1 ++ [EvRead read_packet (fst reply) (snd reply)] /\
   (fst reply <> 0 -> fst out = fst reply /\ store (snd out) = store m) /\
   (fst reply = 0 ->
    shtc1_check_crc data 2 (byte_at data 2) = false \/
    shtc1_check_crc (drop 3 data) 2 (byte_at data 5) = false ->
    fst out = STATUS_ERR_BAD_DATA /\ store (snd out) = store m) /\
   (fst reply = 0 ->
    shtc1_check_crc data 2 (byte_at data 2) = true ->
    shtc1_check_crc (drop 3 data) 2 (byte_at data 5) = true ->
    fst out = STATUS_OK /\
    (forall p : loc, p <> temp -> p <> rh ->
                     store (snd out) !! p = store m !! p) /\
    (temp <> rh ->
     is_uint8 (byte_at data 0) -> is_uint8 (byte_at data 1) ->
     is_uint8 (byte_at data 3) -> is_uint8 (byte_at data 4) ->
     store (snd out) !!! temp =
       Z.shiftr (21875 * raw_code (byte_at data 0) (byte_at data 1)) 13
       - 45000 /\
     store (snd out) !!! rh =
       Z.shiftr (12500 * raw_code (byte_at data 3) (byte_at data 4)) 13))) /\
  (fst out <> STATUS_OK -> store (snd out) = store m).
Proof using int_bits_ge_32.
  intros w m1 reply data out. subst out.
  pose proof (shtc1_read_sync_unfold command temp rh m) as Hun.
  cbv zeta in Hun. fold w in Hun. fold m1 in Hun. rewrite Hun. clear Hun.
  assert (Hstore : store m1 = store m) by reflexivity.
  clearbody m1. clearbody w. subst data reply.
  destruct (i2c_read_reply (bus_log m1) read_packet) as [r data] eqn:Hrd.
  cbn [fst snd].
  destruct (Z.eq_dec w 0) as [Hw | Hw].
  2: { apply Z.eqb_neq in Hw as Hwb. rewrite Hwb. cbn [negb fst snd].
       split; [intros _; reflexivity|].
       split; [intros Hw0; contradiction|]. intros _. exact Hstore. }
  rewrite Hw. cbn [Z.eqb negb].
  split; [intros Hne; contradiction|].
  pose proof (read_async_result_log temp rh m1) as Hlog.
  cbv zeta in Hlog. rewrite Hrd in Hlog. cbn [fst snd] in Hlog.
  destruct (Z.eq_dec r 0) as [-> | Hr].
  - destruct (shtc1_check_crc data 2 (byte_at data 2)) eqn:H1;
      [destruct (shtc1_check_crc (drop 3 data) 2 (byte_at data 5)) eqn:H2|].
    + split.
      * intros _. split; [reflexivity|]. split; [exact Hlog|].
        split; [intros Hne; contradiction|].
        split; [intros _ [Hf | Hf]; discriminate Hf|].
        intros _ _ _.
        split; [rewrite (read_async_result_ok temp rh m1 data Hrd H1 H2);
                reflexivity|].
        split.
        -- intros p Hpt Hph.
           rewrite (read_async_result_ok temp rh m1 data Hrd H1 H2).
           cbn [fst snd store].
           repeat (rewrite lookup_insert_ne by congruence).
           rewrite Hstore. reflexivity.
        -- intros Hne H0 H1' H3 H4.
           exact (proj2 (accepted_data_store temp rh m1 data Hne H0 H1' H3 H4
                           Hrd H1 H2)).
      * intros Hne. exfalso. apply Hne.
        rewrite (read_async_result_ok temp rh m1 data Hrd H1 H2). reflexivity.
    + rewrite (read_async_result_bad_crc temp rh m1 data Hrd (or_intror H2))
        in Hlog |- *.
      cbn [fst snd store] in Hlog |- *.
      split; [|intros _; exact Hstore].
      intros _. split; [reflexivity|]. split; [exact Hlog|].
      split; [intros Hne; contradiction|].
      split; [intros _ _; split; [reflexivity | exact Hstore]|].
      intros _ _ Hf. discriminate Hf.
    + rewrite (read_async_result_bad_crc temp rh m1 data Hrd (or_introl H1))
        in Hlog |- *.
      cbn [fst snd store] in Hlog |- *.
      split; [|intros _; exact Hstore].
      intros _. split; [reflexivity|]. split; [exact Hlog|].
      split; [intros Hne; contradiction|].
      split; [intros _ _; split; [reflexivity | exact Hstore]|].
      intros _ Hf. discriminate Hf.
  - rewrite (read_async_result_read_failed temp rh m1 r data Hrd Hr)
      in Hlog |- *.
    cbn [fst snd store] in Hlog |- *.
    split; [|intros _; exact Hstore].
    intros _. split; [reflexivity|]. split; [exact Hlog|].
    split; [intros _; split; [reflexivity | exact Hstore]|].
    split; intros Hr0; contradiction.
Qed.

(** C5. Each blocking measurement, high precision and low power, first
    writes its 2-byte clock-stretching command to address 0x70 without a
    stop condition, then waits 50 ms, the same delay in both modes. When the
    write failed, it returns the status of the write as it is, after these two
    steps only: nothing is read and the store is untouched. When the write
    succeeded, its next and last bus operation is one 6-byte read from
    address 0x70, and it validates and decodes what was read: a failed read
    returns the status of the read and leaves the store alone; a failed CRC
    check, of bytes 0-1 against byte 2 or of bytes 3-4 against byte 5,
    returns the bad-data error and leaves the store alone; and when both
    checks pass it returns the success status, changes no location but the
    two outputs and, these being distinct, leaves in them the converted raw
    codes. With zero as the success status, success is returned in this last
    case only. *)
Theorem blocking_read_steps (temp rh : loc) (m : machine) :
  let packet := mk_packet 0x70 2 false false in
  let read := mk_packet 0x70 6 false false in
  let steps (command : list Z) (out : Z * machine) : Prop :=
    let w := i2c_write_reply (bus_log m) false packet command in
    let m1 := mk_machine
                (bus_log m ++ [EvWriteNoStop packet command w; EvDelay 50])
                (store m) in
    let reply := i2c_read_reply (bus_log m1) read in
    let data := snd reply in
    (w <> 0 -> out = (w, m1)) /\
    (w = 0 ->
     out = shtc1_read_async_result temp rh m1 /\
     bus_log (snd out) =
     bus_log m1 ++ [EvRead read (fst reply) (snd reply)] /\
     (fst reply <> 0 -> fst out = fst reply /\ store (snd out) = store m) /\
     (fst reply = 0 ->
      shtc1_check_crc data 2 (byte_at data 2) = false \/
      shtc1_check_crc (drop 3 data) 2 (byte_at data 5) = false ->
      fst out = STATUS_ERR_BAD_DATA /\ store (snd out) = store m) /\
     (fst reply = 0 ->
      shtc1_check_crc data 2 (byte_at data 2) = true ->
      shtc1_check_crc (drop 3 data) 2 (byte_at data 5) = true ->
      fst out = STATUS_OK /\
      (forall p : loc, p <> temp -> p <> rh ->
                       store (snd out) !! p = store m !! p) /\
      (temp <> rh ->
       is_uint8 (byte_at data 0) -> is_uint8 (byte_at data 1) ->
       is_uint8 (byte_at data 3) -> is_uint8 (byte_at data 4) ->
       store (snd out) !!! temp =
         Z.shiftr (21875 * raw_code (byte_at data 0) (byte_at data 1)) 13
         - 45000 /\
       store (snd out) !!! rh =
         Z.shiftr (12500 * raw_code (byte_at data 3) (byte_at data 4)) 13))) /\
    (fst out <> STATUS_OK -> store (snd out) = store m) /\
    (STATUS_OK = 0 ->
     (fst out = STATUS_OK <->
      w = 0 /\ fst reply = 0 /\
      shtc1_check_crc data 2 (byte_at data 2) = true /\
      shtc1_check_crc (drop 3 data) 2 (byte_at data 5) = true)) in
  steps [0x7c; 0xa2] (shtc1_read_hpm_sync temp rh m) /\
  steps [0x64; 0x58] (shtc1_read_lpm_sync temp rh m).
Proof using int_bits_ge_32 STATUS_ERR_BAD_DATA_not_OK.
  intros packet read steps.
  assert (Hsteps : forall command,
            steps command (shtc1_read_sync command temp rh m)).
  { intros command. subst steps. cbv beta.
    destruct (read_sync_steps command temp rh m) as (Hfail & Hok & Hkeep).
    split; [exact Hfail|]. split; [exact Hok|]. split; [exact Hkeep|].
    intros Hzero.
    exact (proj1 (read_sync_status_cases command temp rh m Hzero)). }
  split; apply Hsteps.
Qed.

(** X11. The blocking read reports the first failure and swallows none:
    with zero as the success status, it returns success exactly when its
    write succeeded, its read succeeded and both CRC checks passed; when
    the write succeeded and the read failed, it returns the status of the
    read; and whenever it returns anything but success the store is as
    before. This holds in both modes. *)
Theorem blocking_read_status (temp rh : loc) (m : machine) :
  STATUS_OK = 0 ->
  let status_of (command : list Z) (out : Z * machine) : Prop :=
    let w := i2c_write_reply (bus_log m) false command_packet command in
    let reply :=
      i2c_read_reply
        (bus_log m ++ [EvWriteNoStop command_packet command w; EvDelay 50])
        read_packet in
    let data := snd reply in
    (fst out = STATUS_OK <->
     w = 0 /\ fst reply = 0 /\
     shtc1_check_crc data 2 (byte_at data 2) = true /\
     shtc1_check_crc (drop 3 data) 2 (byte_at data 5) = true) /\
    (w = 0 -> fst reply <> 0 -> fst out = fst reply) /\
    (fst out <> STATUS_OK -> store (snd out) = store m) in
  status_of [0x7c; 0xa2] (shtc1_read_hpm_sync temp rh m) /\
  status_of [0x64; 0x58] (shtc1_read_lpm_sync temp rh m).
Proof using STATUS_ERR_BAD_DATA_not_OK.
  intros Hok status_of. subst status_of. cbv beta.
  split.
  - exact (read_sync_status_cases CMD_MEASURE_HPM_CS temp rh m Hok).
  - exact (read_sync_status_cases CMD_MEASURE_LPM_CS temp rh m Hok).
Qed.

(** X12. The two-phase protocol. A start operation does one thing: it
    writes its 2-byte command (not the clock-stretching one) to address 0x70
    without a stop condition and returns the status of that write; it
    neither waits nor reads nor touches the store. The result decoding run
    after it adds its 6-byte read right behind that write, no delay between
    them. And it decodes as the blocking read of the same mode does: when
    the blocking read, run from the same store, has its write accepted and
    its read answered as the read of the two-phase run, both runs end with
    the same status and the same store. *)
Theorem start_then_result (temp rh : loc) (m : machine) :
  let two_phase (command : list Z) (start : Z * machine)
      (cs_command : list Z) (blocking : machine -> Z * machine) : Prop :=
    let packet := mk_packet 0x70 2 false false in
    let w := i2c_write_reply (bus_log m) false packet command in
    let log1 := bus_log m ++ [EvWriteNoStop packet command w] in
    let reply := i2c_read_reply log1 (mk_packet 0x70 6 false false) in
    let out := shtc1_read_async_result temp rh (snd start) in
    start = (w, mk_machine log1 (store m)) /\
    bus_log (snd out) =
    log1 ++ [EvRead (mk_packet 0x70 6 false false) (fst reply) (snd reply)] /\
    (forall ms : machine,
       i2c_write_reply (bus_log ms) false packet cs_command = 0 ->
       store ms = store m ->
       i2c_read_reply
         (bus_log ms ++ [EvWriteNoStop packet cs_command 0; EvDelay 50])
         (mk_packet 0x70 6 false false) = reply ->
       fst (blocking ms) = fst out /\
       store (snd (blocking ms)) = store (snd out)) in
  two_phase [0x78; 0x66] (shtc1_read_hpm_async m)
    [0x7c; 0xa2] (shtc1_read_hpm_sync temp rh) /\
  two_phase [0x60; 0x9c] (shtc1_read_lpm_async m)
    [0x64; 0x58] (shtc1_read_lpm_sync temp rh).
Proof.
  intros two_phase.
  assert (Hboth : forall command cs_command,
    two_phase command
      (i2c_master_write_packet_wait_no_stop command_packet command m)
      cs_command (shtc1_read_sync cs_command temp rh)).
  { intros command cs_command. subst two_phase. cbv beta zeta.
    change (mk_packet 0x70 2 false false) with command_packet.
    change (mk_packet 0x70 6 false false) with read_packet.
    cbv [i2c_master_write_packet_wait_no_stop log_event].
    cbn [fst snd bus_log store].
    split; [reflexivity|]. split.
    - rewrite read_async_result_log. reflexivity.
    - intros ms Hw Hst Hrd.
      rewrite shtc1_read_sync_unfold, Hw. cbn [Z.eqb negb].
      apply read_async_result_depends_on_reply.
      + cbn [store]. exact Hst.
      + cbn [bus_log]. exact Hrd. }
  split; apply Hboth.
Qed.

(** X13. The probe answers true in one case only: the 3-byte read
    succeeded, the CRC of the first two bytes against the third is valid
    and the low 5 bits of the second byte are 0x07. A wrong CRC gives false
    whatever the signature bits are. *)
Theorem probe_true_iff (m : machine) :
  let packet := mk_packet 0x70 2 false false in
  let w := i2c_write_reply (bus_log m) false packet [0xef; 0xc8] in
  let reply :=
    i2c_read_reply
      (bus_log m ++ [EvWriteNoStop packet [0xef; 0xc8] w; EvDelay 50])
      (mk_packet 0x70 3 false false) in
  let data := snd reply in
  (fst (shtc1_probe m) = true <->
   fst reply = 0 /\
   shtc1_check_crc data 2 (byte_at data 2) = true /\
   byte_at data 1 mod 2 ^ 5 = 0x07) /\
  (shtc1_check_crc data 2 (byte_at data 2) = false ->
   fst (shtc1_probe m) = false).
Proof.
  intros packet w reply data. subst data.
  rewrite shtc1_probe_unfold. cbn [fst snd bus_log store].
  change (i2c_read_reply _ id_packet) with reply.
  destruct reply as [r data]. cbn [fst snd].
  change ID_REG_MASK with (Z.ones 5). rewrite Z.land_ones by lia.
  destruct (Z.eq_dec r 0) as [-> | Hr].
  - cbn [Z.eqb negb].
    destruct (shtc1_check_crc data 2 (byte_at data 2)); cbn [negb].
    + split; [|intros Hf; discriminate Hf].
      rewrite Z.eqb_eq. split; [intros Hs; repeat split; exact Hs|].
      intros (_ & _ & Hs). exact Hs.
    + split; [|intros _; reflexivity].
      split; [intros Hf; discriminate Hf|].
      intros (_ & Hf & _). discriminate Hf.
  - apply Z.eqb_neq in Hr as Hrb. rewrite Hrb. cbn [negb].
    split; [|intros _; reflexivity].
    split; [intros Hf; discriminate Hf|].
    intros (Hr0 & _). contradiction.
Qed.

(** X14. Bus discipline. Each of the seven operations only appends to the
    history of the bus, at most three events, and every event it appends
    is one of the driver's own: addressed to 0x70 with 7-bit addressing at
    normal speed, a write of exactly the 2 bytes of one of the six
    commands, with a stop condition for the reset command alone, a read of
    6 or 3 bytes, or a delay of 50 ms. *)
Theorem driver_bus_discipline (temp rh : loc) (m : machine) :
  let disciplined (m' : machine) : Prop :=
    exists new : list bus_event,
      bus_log m' = bus_log m ++ new /\
      forallb driver_event new = true /\
      (length new <= 3)%nat in
  disciplined (snd (shtc1_read_hpm_sync temp rh m)) /\
  disciplined (snd (shtc1_read_lpm_sync temp rh m)) /\
  disciplined (snd (shtc1_read_hpm_async m)) /\
  disciplined (snd (shtc1_read_lpm_async m)) /\
  disciplined (snd (shtc1_read_async_result temp rh m)) /\
  disciplined (snd (shtc1_reset m)) /\
  disciplined (snd (shtc1_probe m)).
Proof.
  intros disciplined.
  assert (Hsync : forall command,
    (command = CMD_MEASURE_HPM_CS \/ command = CMD_MEASURE_LPM_CS) ->
    disciplined (snd (shtc1_read_sync command temp rh m))).
  { intros command Hcmd. subst disciplined. cbv beta.
    rewrite shtc1_read_sync_unfold.
    destruct (negb (_ =? 0)).
    - eexists. cbn [snd bus_log]. split; [reflexivity|].
      split; [|cbn [length]; lia].
      destruct Hcmd as [-> | ->]; reflexivity.
    - rewrite read_async_result_log. cbn [bus_log].
      rewrite <- app_assoc. eexists. split; [reflexivity|].
      split; [|cbn [length app]; lia].
      destruct Hcmd as [-> | ->]; reflexivity. }
  split; [apply Hsync; left; reflexivity|].
  split; [apply Hsync; right; reflexivity|].
  subst disciplined. cbv beta.
  split; [eexists; split; [reflexivity|]; split; [reflexivity|cbn; lia]|].
  split; [eexists; split; [reflexivity|]; split; [reflexivity|cbn; lia]|].
  split.
  { rewrite read_async_result_log. eexists. split; [reflexivity|].
    split; [reflexivity | cbn; lia]. }
  split; [eexists; split; [reflexivity|]; split; [reflexivity|cbn; lia]|].
  rewrite shtc1_probe_unfold. cbn [snd bus_log].
  rewrite <- app_assoc. eexists. split; [reflexivity|].
  split; [reflexivity | cbn; lia].
Qed.

End Driver.

(** ** The theorems at concrete frames *)

(** The test vector of the sensor's data sheet. *)
Example crc_of_beef : shtc1_crc [0xbe; 0xef] 2 = 0x92.
Proof. vm_compute. reflexivity. Qed.

(** The sample frame decodes to 26.307 degrees Celsius and 50 percent. *)
Example sample_frame_decodes :
  let out := shtc1_read_async_result 32 0 0x13 (bus_reads 0 sample_frame)
               1%positive 2%positive idle_machine in
  (fst out, store (snd out) !! 1%positive, store (snd out) !! 2%positive) =
  (0, Some 26307, Some 50000).
Proof. vm_compute. reflexivity. Qed.

(** Why the conversion theorems ask for distinct output locations: with
    both outputs at one location the humidity code overwrites the
    temperature code before either is converted. *)
Example aliased_outputs :
  let out := shtc1_read_async_result 32 0 0x13 (bus_reads 0 sample_frame)
               1%positive 1%positive idle_machine in
  (fst out, store (snd out) !! 1%positive) = (0, Some 64849).
Proof. vm_compute. reflexivity. Qed.

Lemma shtc1_check_crc_is_crc8_witness :
  (2 <= length [0xbe; 0xef])%nat /\
  (shtc1_check_crc [0xbe; 0xef] 2 0x92 = true <->
   spec_compute_crc (take 2 [0xbe; 0xef]) = 0x92).
Proof.
  assert (Hlen : (2 <= length [0xbe; 0xef])%nat) by (cbn; lia).
  split; [exact Hlen|].
  apply (shtc1_check_crc_is_crc8 [0xbe; 0xef] 2 0x92 Hlen).
Defined.

Lemma crc_detects_single_bit_flip_witness :
  (1 < 2)%nat /\ 0 <= 3 < 8 /\
  shtc1_check_crc (corrupt 1 3 [0xbe; 0xef]) 2 (shtc1_crc [0xbe; 0xef] 2) =
  false.
Proof.
  assert (Hpos : (1 < 2)%nat) by lia.
  assert (Hk : 0 <= 3 < 8) by lia.
  split; [exact Hpos|]. split; [exact Hk|].
  exact (crc_detects_single_bit_flip 0xbe 0xef 1 3 Hpos Hk).
Defined.

Lemma read_async_result_crc_gate_witness :
  0x13 <> 0 /\
  bus_reads 0 damaged_frame (bus_log idle_machine) read_packet =
  (0, [0x68; 0x50; 0x9d; 0x81; 0x00; 0xa2]) /\
  let out := shtc1_read_async_result 32 0 0x13 (bus_reads 0 damaged_frame)
               1%positive 2%positive idle_machine in
  (fst out = 0x13 /\ store (snd out) = store idle_machine <->
   shtc1_check_crc [0x68; 0x50] 2 0x9d = false \/
   shtc1_check_crc [0x81; 0x00] 2 0xa2 = false) /\
  (fst out = 0 <->
   shtc1_check_crc [0x68; 0x50] 2 0x9d = true /\
   shtc1_check_crc [0x81; 0x00] 2 0xa2 = true).
Proof.
  assert (Hne : 0x13 <> 0) by lia.
  assert (Hrd : bus_reads 0 damaged_frame (bus_log idle_machine) read_packet =
                (0, [0x68; 0x50; 0x9d; 0x81; 0x00; 0xa2])) by reflexivity.
  split; [exact Hne|]. split; [exact Hrd|].
  exact (read_async_result_crc_gate 32 0 0x13 Hne (bus_reads 0 damaged_frame)
           1%positive 2%positive idle_machine _ _ _ _ _ _ Hrd).
Defined.

Lemma read_async_result_error_keeps_outputs_witness :
  let m := mk_machine [] (<[1%positive := 111]> (<[2%positive := 222]> ∅)) in
  let out := shtc1_read_async_result 32 0 0x13 (bus_reads 0 damaged_frame)
               1%positive 2%positive m in
  fst out = 0x13 /\
  store (snd out) !!! 1%positive = 111 /\
  store (snd out) !!! 2%positive = 222.
Proof.
  intros m out.
  destruct (read_async_result_error_keeps_outputs 32 0 0x13
              (bus_reads 0 damaged_frame) 1%positive 2%positive m)
    as [Herr _].
  destruct Herr as (_ & Ht & Hh).
  - right. right. reflexivity.
  - split; [reflexivity|]. split; [exact Ht | exact Hh].
Defined.

Lemma temperature_conversion_witness :
  32 <= 32 /\ 1%positive <> 2%positive /\ is_uint8 0x68 /\ is_uint8 0x50 /\
  let out := shtc1_read_async_result 32 0 0x13 (bus_reads 0 sample_frame)
               1%positive 2%positive idle_machine in
  fst out = 0 /\ store (snd out) !!! 1%positive = 26307.
Proof.
  assert (Hw : 32 <= 32) by lia.
  assert (Hne : 1%positive <> 2%positive) by discriminate.
  assert (H0 : is_uint8 0x68) by (unfold is_uint8; lia).
  assert (H1 : is_uint8 0x50) by (unfold is_uint8; lia).
  split; [exact Hw|]. split; [exact Hne|]. split; [exact H0|].
  split; [exact H1|].
  destruct (temperature_conversion 32 Hw 0 0x13 (bus_reads 0 sample_frame)
              1%positive 2%positive idle_machine
              0x68 0x50 0x9d 0x80 0x00 0xa2 Hne H0 H1
              eq_refl eq_refl eq_refl) as (_ & Hst & Hv & _).
  split; [exact Hst | exact Hv].
Defined.

Lemma humidity_conversion_witness :
  32 <= 32 /\ 1%positive <> 2%positive /\ is_uint8 0x80 /\ is_uint8 0x00 /\
  let out := shtc1_read_async_result 32 0 0x13 (bus_reads 0 sample_frame)
               1%positive 2%positive idle_machine in
  fst out = 0 /\ store (snd out) !!! 2%positive = 50000.
Proof.
  assert (Hw : 32 <= 32) by lia.
  assert (Hne : 1%positive <> 2%positive) by discriminate.
  assert (H3 : is_uint8 0x80) by (unfold is_uint8; lia).
  assert (H4 : is_uint8 0x00) by (unfold is_uint8; lia).
  split; [exact Hw|]. split; [exact Hne|]. split; [exact H3|].
  split; [exact H4|].
  destruct (humidity_conversion 32 Hw 0 0x13 (bus_reads 0 sample_frame)
              1%positive 2%positive idle_machine
              0x68 0x50 0x9d 0x80 0x00 0xa2 Hne H3 H4
              eq_refl eq_refl eq_refl) as (_ & Hst & _ & _ & Hhalf).
  split; [exact Hst | exact (Hhalf eq_refl)].
Defined.

Lemma blocking_read_steps_witness :
  let failed :=
    (5, mk_machine [EvWriteNoStop (mk_packet 0x70 2 false false)
                      [0x7c; 0xa2] 5; EvDelay 50] ∅) in
  let decoded := shtc1_read_hpm_sync 32 0 0x13 (bus_writes 0)
                   (bus_reads 0 sample_frame) 1%positive 2%positive
                   idle_machine in
  let rejected := shtc1_read_lpm_sync 32 0 0x13 (bus_writes 0)
                    (bus_reads 0 damaged_frame) 1%positive 2%positive
                    idle_machine in
  shtc1_read_hpm_sync 32 0 0x13 (bus_writes 5) (bus_reads 0 sample_frame)
    1%positive 2%positive idle_machine = failed /\
  bus_log (snd (shtc1_read_lpm_sync 32 0 0x13 (bus_writes 0)
                  (bus_reads 0 sample_frame) 1%positive 2%positive
                  idle_machine)) =
  [EvWriteNoStop (mk_packet 0x70 2 false false) [0x64; 0x58] 0; EvDelay 50;
   EvRead (mk_packet 0x70 6 false false) 0 sample_frame] /\
  (fst decoded = 0 /\
   store (snd decoded) !!! 1%positive = 26307 /\
   store (snd decoded) !!! 2%positive = 50000) /\
  (fst rejected = 0x13 /\ store (snd rejected) = ∅).
Proof.
  intros failed decoded rejected.
  assert (Hw : 32 <= 32) by lia.
  assert (Hne : 0x13 <> 0) by lia.
  split; [|split; [|split]].
  - destruct (blocking_read_steps 32 Hw 0 0x13 Hne (bus_writes 5)
                (bus_reads 0 sample_frame) 1%positive 2%positive
                idle_machine) as [(Hfail & _) _].
    apply Hfail. vm_compute. discriminate.
  - destruct (blocking_read_steps 32 Hw 0 0x13 Hne (bus_writes 0)
                (bus_reads 0 sample_frame) 1%positive 2%positive
                idle_machine) as [_ (_ & Hok & _)].
    destruct (Hok eq_refl) as (_ & Hlog & _). exact Hlog.
  - destruct (blocking_read_steps 32 Hw 0 0x13 Hne (bus_writes 0)
                (bus_reads 0 sample_frame) 1%positive 2%positive
                idle_machine) as [(_ & Hok & _) _].
    destruct (Hok eq_refl) as (_ & _ & _ & _ & Hdec).
    destruct (Hdec eq_refl eq_refl eq_refl) as (Hst & _ & Hval).
    split; [exact Hst|].
    destruct Hval as [Ht Hh].
    + discriminate.
    + vm_compute. split; [discriminate | reflexivity].
    + vm_compute. split; [discriminate | reflexivity].
    + vm_compute. split; [discriminate | reflexivity].
    + vm_compute. split; [discriminate | reflexivity].
    + split.
      * etransitivity; [exact Ht | vm_compute; reflexivity].
      * etransitivity; [exact Hh | vm_compute; reflexivity].
  - destruct (blocking_read_steps 32 Hw 0 0x13 Hne (bus_writes 0)
                (bus_reads 0 damaged_frame) 1%positive 2%positive
                idle_machine) as [_ (_ & Hok & _)].
    destruct (Hok eq_refl) as (_ & _ & _ & Hbad & _).
    apply Hbad; [reflexivity|]. right. vm_compute. reflexivity.
Defined.

Lemma sync_async_same_result_witness :
  let sync := shtc1_read_hpm_sync 32 0 0x13 (bus_writes 0)
                (bus_reads 0 sample_frame) 1%positive 2%positive
                idle_machine in
  let async := shtc1_read_async_result 32 0 0x13 (bus_reads 0 sample_frame)
                 1%positive 2%positive idle_machine in
  bus_log (snd sync) <> bus_log (snd async) /\
  fst sync = fst async /\
  store (snd sync) !!! 1%positive = store (snd async) !!! 1%positive /\
  store (snd sync) !!! 2%positive = store (snd async) !!! 2%positive.
Proof.
  intros sync async. split; [vm_compute; discriminate|].
  destruct (sync_async_same_result 32 0 0x13 (bus_writes 0)
              (bus_reads 0 sample_frame) CMD_MEASURE_HPM_CS
              1%positive 2%positive idle_machine idle_machine
              eq_refl eq_refl eq_refl) as (_ & Hhpm & _).
  destruct (Hhpm eq_refl) as (Hst & _ & Ht & Hh).
  split; [exact Hst|]. split; [exact Ht | exact Hh].
Defined.

Lemma probe_ignores_write_status_witness :
  fst (shtc1_probe (bus_writes 5) (bus_reads 7 sample_id_frame)
         idle_machine) = false /\
  fst (shtc1_probe (bus_writes 0) (bus_reads 7 sample_id_frame)
         idle_machine) = false /\
  fst (shtc1_probe (bus_writes 5) (bus_reads 0 sample_id_frame)
         idle_machine) = true.
Proof.
  split; [|split].
  - destruct (probe_ignores_write_status (bus_writes 5)
                (bus_reads 7 sample_id_frame) idle_machine)
      as (_ & _ & Hf & _).
    apply Hf. vm_compute. discriminate.
  - destruct (probe_ignores_write_status (bus_writes 0)
                (bus_reads 7 sample_id_frame) idle_machine)
      as (_ & _ & Hf & _).
    apply Hf. vm_compute. discriminate.
  - destruct (probe_ignores_write_status (bus_writes 5)
                (bus_reads 0 sample_id_frame) idle_machine)
      as (_ & _ & _ & _ & _ & Ht).
    apply Ht.
    + vm_compute. discriminate.
    + reflexivity.
    + vm_compute. reflexivity.
    + reflexivity.
Defined.

Lemma probe_signature_witness :
  shtc1_check_crc [0x00; 0x07] 2 0x16 = true /\
  (fst (shtc1_probe (bus_writes 0) (bus_reads 0 sample_id_frame)
          idle_machine) = true <-> 0x07 mod 2 ^ 5 = 0x07).
Proof.
  assert (Hcrc : shtc1_check_crc [0x00; 0x07] 2 0x16 = true) by reflexivity.
  split; [exact Hcrc|].
  destruct (probe_signature (bus_writes 0) (bus_reads 0 sample_id_frame)
              idle_machine 0x00 0x07 0x16 eq_refl Hcrc) as [Hiff _].
  exact Hiff.
Defined.

(** ** The further properties at concrete frames *)

Lemma crc_detects_byte_corruption_witness :
  shtc1_check_crc (<[1%nat := 0x00]> [0xbe; 0xef; 0x92]) 2
    (shtc1_crc [0xbe; 0xef; 0x92] 2) = false.
Proof.
  apply (crc_detects_byte_corruption [0xbe; 0xef; 0x92] 2 1 0x00).
  - cbn [length]. lia.
  - lia.
  - vm_compute. split; [discriminate | reflexivity].
  - vm_compute. split; [discriminate | reflexivity].
  - vm_compute. discriminate.
Defined.

Lemma crc_reads_only_data_length_witness :
  shtc1_crc sample_frame 2 = shtc1_crc [0x68; 0x50] 2 /\
  shtc1_check_crc sample_frame 2 0x9d = shtc1_check_crc [0x68; 0x50] 2 0x9d.
Proof.
  apply (crc_reads_only_data_length sample_frame [0x68; 0x50] 2 0x9d).
  - vm_compute. lia.
  - vm_compute. lia.
  - reflexivity.
Defined.

Lemma uint8_sample_bytes :
  is_uint8 0x68 /\ is_uint8 0x50 /\ is_uint8 0x80 /\ is_uint8 0x00 /\
  is_uint8 0x81.
Proof. unfold is_uint8. lia. Qed.

Lemma computed_checksums_accepted_witness :
  let out := shtc1_read_async_result 32 0 0x13 (bus_reads 0 sample_frame)
               1%positive 2%positive idle_machine in
  fst out = 0 /\
  store (snd out) !!! 1%positive = Z.shiftr (21875 * raw_code 0x68 0x50) 13 - 45000 /\
  store (snd out) !!! 2%positive = Z.shiftr (12500 * raw_code 0x80 0x00) 13.
Proof.
  destruct uint8_sample_bytes as (H68 & H50 & H80 & H00 & _).
  assert (Hw : 32 <= 32) by lia.
  assert (Hne : 1%positive <> 2%positive) by discriminate.
  exact (computed_checksums_accepted 32 Hw 0 0x13 (bus_reads 0 sample_frame)
           1%positive 2%positive idle_machine 0x68 0x50 0x80 0x00
           Hne H68 H50 H80 H00 eq_refl).
Defined.

Lemma damaged_frame_is_rejected_witness :
  let out := shtc1_read_async_result 32 0 0x13 (bus_reads 0 damaged_frame)
               1%positive 2%positive idle_machine in
  fst out = 0x13 /\ store (snd out) = store idle_machine.
Proof.
  destruct uint8_sample_bytes as (H68 & H50 & H80 & H00 & H81).
  assert (Hpos : (3 < 6)%nat) by lia.
  assert (Hne : 0x81 <>
    byte_at [0x68; 0x50; shtc1_crc [0x68; 0x50] 2;
             0x80; 0x00; shtc1_crc [0x80; 0x00] 2] 3).
  { vm_compute. discriminate. }
  exact (damaged_frame_is_rejected 32 0 0x13 (bus_reads 0 damaged_frame)
           1%positive 2%positive idle_machine 0x68 0x50 0x80 0x00 3 0x81
           H68 H50 H80 H00 Hpos H81 Hne eq_refl).
Defined.

Lemma accepted_outputs_in_range_witness :
  let out := shtc1_read_async_result 32 0 0x13 (bus_reads 0 sample_frame)
               1%positive 2%positive idle_machine in
  -45000 <= store (snd out) !!! 1%positive <= 129997 /\
  0 <= store (snd out) !!! 2%positive <= 99998.
Proof.
  destruct uint8_sample_bytes as (H68 & H50 & H80 & H00 & _).
  assert (Hw : 32 <= 32) by lia.
  assert (Hne : 1%positive <> 2%positive) by discriminate.
  exact (accepted_outputs_in_range 32 Hw 0 0x13 (bus_reads 0 sample_frame)
           1%positive 2%positive idle_machine 0x68 0x50 0x9d 0x80 0x00 0xa2
           Hne H68 H50 H80 H00 eq_refl eq_refl eq_refl).
Defined.

Lemma conversion_is_documented_formula_witness :
  let out := shtc1_read_async_result 32 0 0x13 (bus_reads 0 sample_frame)
               1%positive 2%positive idle_machine in
  store (snd out) !!! 1%positive =
    (175 * 1000 * raw_code 0x68 0x50) / 2 ^ 16 - 45 * 1000 /\
  store (snd out) !!! 2%positive = (100 * 1000 * raw_code 0x80 0x00) / 2 ^ 16.
Proof.
  destruct uint8_sample_bytes as (H68 & H50 & H80 & H00 & _).
  assert (Hw : 32 <= 32) by lia.
  assert (Hne : 1%positive <> 2%positive) by discriminate.
  exact (conversion_is_documented_formula 32 Hw 0 0x13
           (bus_reads 0 sample_frame)
           1%positive 2%positive idle_machine 0x68 0x50 0x9d 0x80 0x00 0xa2
           Hne H68 H50 H80 H00 eq_refl eq_refl eq_refl).
Defined.

Lemma conversion_is_monotone_witness :
  let bus := bus_reads_in_turn cold_frame sample_frame in
  let later := mk_machine [EvDelay 50] ∅ in
  let out := shtc1_read_async_result 32 0 0x13 bus
               1%positive 2%positive idle_machine in
  let out' := shtc1_read_async_result 32 0 0x13 bus
                1%positive 2%positive later in
  store (snd out) !!! 1%positive <= store (snd out') !!! 1%positive /\
  store (snd out) !!! 2%positive <= store (snd out') !!! 2%positive.
Proof.
  intros bus later out out'.
  destruct uint8_sample_bytes as (H68 & H50 & H80 & H00 & _).
  assert (Hw : 32 <= 32) by lia.
  assert (Hne : 1%positive <> 2%positive) by discriminate.
  assert (Hall : Forall is_uint8
            [0x00; 0x00; 0x00; 0x00; 0x68; 0x50; 0x80; 0x00])
    by (repeat (apply Forall_cons_2; [assumption|]); apply Forall_nil_2).
  destruct (conversion_is_monotone 32 Hw 0 0x13 bus
              1%positive 2%positive idle_machine later
              0x00 0x00 0x81 0x00 0x00 0x81 0x68 0x50 0x9d 0x80 0x00 0xa2
              Hne Hall eq_refl eq_refl eq_refl eq_refl eq_refl eq_refl)
    as [Ht Hh].
  split; [apply Ht | apply Hh]; vm_compute; discriminate.
Defined.

Lemma read_async_result_frame_witness :
  let m := mk_machine [] (<[3%positive := 333]> ∅) in
  let out := shtc1_read_async_result 32 0 0x13 (bus_reads 0 sample_frame)
               1%positive 2%positive m in
  store (snd out) !! 3%positive = store m !! 3%positive.
Proof.
  intros m out.
  assert (H1 : 3%positive <> 1%positive) by discriminate.
  assert (H2 : 3%positive <> 2%positive) by discriminate.
  destruct (read_async_result_frame 32 0 0x13 (bus_reads 0 sample_frame)
              1%positive 2%positive m 3%positive H1 H2) as [Hp _].
  exact Hp.
Defined.

Lemma read_async_result_status_witness :
  let out := shtc1_read_async_result 32 0 0x13 (bus_reads 7 [])
               1%positive 2%positive idle_machine in
  fst out = 7 /\ store (snd out) = store idle_machine.
Proof.
  assert (Hne : 0x13 <> 0) by lia.
  destruct (read_async_result_status 32 0 0x13 Hne (bus_reads 7 [])
              1%positive 2%positive idle_machine eq_refl) as [Hfail _].
  apply Hfail. vm_compute. discriminate.
Defined.

Lemma blocking_read_status_witness :
  let out := shtc1_read_hpm_sync 32 0 0x13 (bus_writes 0) (bus_reads 7 [])
               1%positive 2%positive idle_machine in
  fst out = 7.
Proof.
  assert (Hne : 0x13 <> 0) by lia.
  destruct (blocking_read_status 32 0 0x13 Hne (bus_writes 0) (bus_reads 7 [])
              1%positive 2%positive idle_machine eq_refl)
    as [(_ & Hread & _) _].
  apply Hread; [reflexivity | vm_compute; discriminate].
Defined.

Lemma start_then_result_witness :
  shtc1_read_hpm_async (bus_writes 0) idle_machine =
  (0, mk_machine
        [EvWriteNoStop (mk_packet 0x70 2 false false) [0x78; 0x66] 0] ∅).
Proof.
  destruct (start_then_result 32 0 0x13 (bus_writes 0)
              (bus_reads 0 sample_frame) 1%positive 2%positive idle_machine)
    as [(Hstart & _) _].
  exact Hstart.
Defined.

Lemma probe_true_iff_witness :
  fst (shtc1_probe (bus_writes 5) (bus_reads 0 sample_id_frame)
         idle_machine) = true.
Proof.
  destruct (probe_true_iff (bus_writes 5) (bus_reads 0 sample_id_frame)
              idle_machine) as [Hiff _].
  apply Hiff. vm_compute. repeat split; reflexivity.
Defined.

Lemma crc_of_payload_with_checksum_witness :
  (length [0xbe; 0xef] < 255)%nat /\
  shtc1_check_crc ([0xbe; 0xef] ++ [shtc1_crc [0xbe; 0xef] 2]) 3 0 = true.
Proof.
  assert (Hlen : (length [0xbe; 0xef] < 255)%nat) by (cbn [length]; lia).
  split; [exact Hlen|].
  exact (proj2 (crc_of_payload_with_checksum [0xbe; 0xef] Hlen)).
Defined.
